(** * intakeApp: the upload pipeline, embedded and verified

    A shallow embedding of the file-intake gateway:
      - [server/models/upload_models.py]   (metadata schema and validators),
      - [server/services/volume_service.py] (naming, layout, storage calls),
      - [server/services/upload_service.py] (file policy, orchestration),
      - [server/routers/upload.py]          (form parsing, the POST route).

    Python [str] values are sequences of code points; the embedding keeps the
    code points U+0000..U+00FF (one [ascii] each, read as Latin-1), on which
    the character classes of [re] and the [str] methods used by the program
    are tabulated below.  Exceptions are values of [exn]; code that touches
    the clock or the remote volume runs in a small state-and-exception monad
    whose state records every call made to the storage client. *)

From Stdlib Require Import List Ascii String ZArith NArith Lia Bool.
From Stdlib Require Import DecimalString.
From Stdlib Require QArith.
Import ListNotations.

(* ================================================================= *)
(** ** Python strings *)

Module Py.

Definition str := list ascii.

(** String literals of the source. *)
Definition lit (s : string) : str := list_ascii_of_string s.

Definition code (c : ascii) : N := N_of_ascii c.

Definition in_range (lo hi : N) (c : ascii) : bool :=
  ((lo <=? code c) && (code c <=? hi))%N.

Definition is_char (n : N) (c : ascii) : bool := (code c =? n)%N.

Definition str_eqb (a b : str) : bool :=
  if list_eq_dec ascii_dec a b then true else false.

(** [x in l] for a list of strings. *)
Definition mem (x : str) (l : list str) : bool := existsb (str_eqb x) l.

(** Truthiness of a string, and of an optional one ([None] is falsy). *)
Definition truthy (s : str) : bool :=
  match s with [] => false | _ :: _ => true end.

Definition truthy_opt (o : option str) : bool :=
  match o with Some s => truthy s | None => false end.

(** [str.isspace] on one code point; the same set is the class [\s] of
    [re] on [str] patterns. *)
Definition isspace (c : ascii) : bool :=
  in_range 9 13 c || in_range 28 32 c || is_char 133 c || is_char 160 c.

Definition is_ascii_upper (c : ascii) : bool := in_range 65 90 c.
Definition is_ascii_lower (c : ascii) : bool := in_range 97 122 c.
Definition is_ascii_digit (c : ascii) : bool := in_range 48 57 c.

(** The class [\w] of [re] on [str] patterns: alphanumeric code points and
    the underscore. *)
Definition is_word (c : ascii) : bool :=
  is_ascii_digit c || is_ascii_upper c || is_ascii_lower c || is_char 95 c
  || is_char 170 c || in_range 178 179 c || is_char 181 c
  || in_range 185 186 c || in_range 188 190 c
  || in_range 192 214 c || in_range 216 246 c || in_range 248 255 c.

(** Code points that [str.lower] changes. *)
Definition is_upper (c : ascii) : bool :=
  is_ascii_upper c || in_range 192 214 c || in_range 216 222 c.

Definition lower_char (c : ascii) : ascii :=
  if is_upper c then ascii_of_N (code c + 32) else c.

(** [s.lower()].  On the code points kept here [str.lower] gives one code
    point for each code point; outside them it need not (U+0130 becomes
    two), so what is proved of [lower] speaks of strings within
    U+0000..U+00FF. *)
Definition lower (s : str) : str := map lower_char s.

Fixpoint dropwhile (p : ascii -> bool) (s : str) : str :=
  match s with
  | [] => []
  | c :: s' => if p c then dropwhile p s' else s
  end.

Definition lstrip (s : str) : str := dropwhile isspace s.
Definition rstrip (s : str) : str := rev (dropwhile isspace (rev s)).

(** [s.strip()] *)
Definition strip (s : str) : str := rstrip (lstrip s).

(** [s.split(sep)] for a one-character separator: never empty. *)
Fixpoint split (sep : ascii) (s : str) : list str :=
  match s with
  | [] => [[]]
  | c :: s' =>
      if ascii_dec c sep then [] :: split sep s'
      else match split sep s' with
           | h :: t => (c :: h) :: t
           | [] => [[c]]
           end
  end.

(** [l[-1]] on a list that [split] returned. *)
Definition last_item (l : list str) : str := last l [].

(** The text before the first [sep], and the text after it when [sep]
    occurs. *)
Fixpoint break_at (sep : ascii) (s : str) : str * option str :=
  match s with
  | [] => ([], None)
  | c :: s' =>
      if ascii_dec c sep then ([], Some s')
      else let (a, b) := break_at sep s' in (c :: a, b)
  end.

(** [s.rsplit(sep, 1)]: one element when [sep] does not occur, otherwise
    the text before the last [sep] and the text after it. *)
Definition rsplit1 (sep : ascii) (s : str) : list str :=
  match break_at sep (rev s) with
  | (_, None) => [s]
  | (a, Some b) => [rev b; rev a]
  end.

(** [sep.join(l)] *)
Fixpoint join (sep : str) (l : list str) : str :=
  match l with
  | [] => []
  | [x] => x
  | x :: rest => x ++ sep ++ join sep rest
  end.

Fixpoint startswith (p s : str) : bool :=
  match p, s with
  | [], _ => true
  | _ :: _, [] => false
  | a :: p', b :: s' => if ascii_dec a b then startswith p' s' else false
  end.

(** [needle in hay] *)
Fixpoint contains (needle hay : str) : bool :=
  startswith needle hay ||
  match hay with
  | [] => false
  | _ :: hay' => contains needle hay'
  end.

(** [str(n)] for a non-negative integer. *)
Definition str_of_N (n : N) : str :=
  list_ascii_of_string (NilZero.string_of_uint (N.to_uint n)).

(** [str(z)] for an integer. *)
Definition str_of_Z (z : Z) : str :=
  match z with
  | Zneg p => lit "-" ++ str_of_N (Npos p)
  | _ => str_of_N (Z.to_N z)
  end.

(** Left padding with zeros up to [width] characters. *)
Definition zfill (width : nat) (s : str) : str :=
  repeat "0"%char (width - List.length s) ++ s.

(** [str(x)] of the float [x = float(z)], as an f-string renders it, for
    an integer [z] with [|z| <= 2^53]: such a float is exact and below
    [1e16], where [repr] prints the digits followed by [.0]. *)
Definition float_str_of_Z (z : Z) : str := str_of_Z z ++ lit ".0".

(** *** [re]: the three patterns of the program *)

(** [$]: at the end of the string, or just before a final newline. *)
Definition at_dollar (rest : str) : bool :=
  match rest with
  | [] => true
  | [c] => is_char 10 c
  | _ => false
  end.

(** Tail of a match of [cls+$] once one character is consumed: the
    repetition may stop wherever [$] holds. *)
Fixpoint match_star_dollar (cls : ascii -> bool) (s : str) : bool :=
  at_dollar s ||
  match s with
  | [] => false
  | c :: s' => cls c && match_star_dollar cls s'
  end.

(** [re.match('^[cls]+$', s)] is not [None]. *)
Definition re_match_plus_dollar (cls : ascii -> bool) (s : str) : bool :=
  match s with
  | [] => false
  | c :: s' => cls c && match_star_dollar cls s'
  end.

(** [re.sub('[^cls]', '', s)]: every character outside the class goes. *)
Definition re_sub_delete_outside (cls : ascii -> bool) (s : str) : str :=
  filter cls s.

(** [re.sub('[cls]+', repl, s)]: scanning left to right, each maximal run
    of class characters is replaced once; [in_run] tells that the run the
    scan is in has been replaced already. *)
Fixpoint re_sub_runs_from (cls : ascii -> bool) (repl : str)
    (in_run : bool) (s : str) : str :=
  match s with
  | [] => []
  | c :: s' =>
      if cls c
      then (if in_run then [] else repl) ++ re_sub_runs_from cls repl true s'
      else c :: re_sub_runs_from cls repl false s'
  end.

Definition re_sub_runs (cls : ascii -> bool) (repl : str) (s : str) : str :=
  re_sub_runs_from cls repl false s.

End Py.

Import Py.

(* ================================================================= *)
(** ** Exceptions and results *)

Inductive exn : Type :=
| HTTPException (status_code : Z) (detail : str)
    (** [fastapi.HTTPException] *)
| ValidationError (title : str) (fields : list str)
    (** [pydantic.ValidationError]: the model and the offending fields *)
| ValueError (msg : str)
| IndexError
| ClientError (msg : str)
    (** whatever the storage client raises; [msg] is its [str()] *)
| Exception (msg : str).
    (** [raise Exception(msg)] *)

Inductive result (A : Type) : Type :=
| Ok (a : A)
| Raise (e : exn).

Arguments Ok {A} a.
Arguments Raise {A} e.

Definition is_HTTPException (e : exn) : bool :=
  match e with HTTPException _ _ => true | _ => false end.

(** The status the framework answers with: the one of an [HTTPException],
    500 for any other exception that escapes the handler, 200 otherwise. *)
Definition response_status {A} (r : result A) : Z :=
  match r with
  | Ok _ => 200
  | Raise (HTTPException s _) => s
  | Raise _ => 500
  end%Z.

(* ================================================================= *)
(** ** server/models/upload_models.py *)

Module Models.

Inductive ResearchPhase := RAW_DATA | PROCESSED | ANALYSIS | RESULTS.
Inductive PrivacyLevel := PUBLIC | INTERNAL | CONFIDENTIAL.
Inductive WorkflowType := CSV | JSON | PDF | XLSX | TXT.
Inductive ProcessingRequirement :=
  CLEANING_NEEDED | VALIDATION_REQUIRED | TRANSFORMATION_READY.

Definition WorkflowType_value (w : WorkflowType) : str :=
  match w with
  | CSV => lit "csv" | JSON => lit "json" | PDF => lit "pdf"
  | XLSX => lit "xlsx" | TXT => lit "txt"
  end.

Definition ProcessingRequirement_value (r : ProcessingRequirement) : str :=
  match r with
  | CLEANING_NEEDED => lit "cleaning-needed"
  | VALIDATION_REQUIRED => lit "validation-required"
  | TRANSFORMATION_READY => lit "transformation-ready"
  end.

Definition ProcessingRequirement_members : list ProcessingRequirement :=
  [CLEANING_NEEDED; VALIDATION_REQUIRED; TRANSFORMATION_READY].

(** [ProcessingRequirement(v)]: lookup of a member by value, [ValueError]
    when there is none. *)
Definition ProcessingRequirement_call (v : str) : result ProcessingRequirement :=
  match find (fun m => str_eqb (ProcessingRequirement_value m) v)
             ProcessingRequirement_members with
  | Some m => Ok m
  | None => Raise (ValueError (lit "'" ++ v
                               ++ lit "' is not a valid ProcessingRequirement"))
  end.

Record DateRange := {
  start : option str;
  end_ : option str
}.

Record ResearchMetadata := {
  project_name : str;
  hypothesis : str;
  data_source : str;
  collection_method : str;
  experiment_id : option str;
  date_range : option DateRange;
  research_phase : option ResearchPhase;
  privacy_level : option PrivacyLevel
}.

Record TechnicalMetadata := {
  workflow_type : WorkflowType;
  processing_requirements : list ProcessingRequirement
}.

(** [datetime]: the fields [strftime] and [isoformat] read. *)
Record datetime := {
  year : N; month : N; day : N;
  hour : N; minute : N; second : N; microsecond : N
}.

Record UploadInfo := {
  timestamp : datetime;
  uploader : str;
  original_filename : str;
  stored_filename : str;
  file_path : str;
  file_size_bytes : Z;
  file_format : str
}.

Record FileUploadRequest := {
  req_research_metadata : ResearchMetadata;
  req_technical_metadata : TechnicalMetadata
}.

Record FileUploadResponse := {
  success : bool;
  message : str;
  resp_upload_info : UploadInfo;
  resp_research_metadata : ResearchMetadata;
  resp_technical_metadata : TechnicalMetadata;
  metadata_file_path : str
}.

Record UploadMetadata := {
  upload_info : UploadInfo;
  technical_metadata : TechnicalMetadata;
  research_metadata : ResearchMetadata
}.

(** The class [[a-zA-Z0-9\s\-_]] of the project-name pattern. *)
Definition project_name_class (c : ascii) : bool :=
  is_ascii_lower c || is_ascii_upper c || is_ascii_digit c
  || isspace c || is_char 45 c || is_char 95 c.

(** [ResearchMetadata.validate_project_name] *)
Definition validate_project_name (v : str) : result str :=
  if negb (re_match_plus_dollar project_name_class v)
  then Raise (ValueError (lit
    "Project name can only contain letters, numbers, spaces, hyphens, and underscores"))
  else Ok (strip v).

(** A [str] field declared with [Field(..., min_length, max_length)]: the
    names of the fields that break a bound (here none or [name]). *)
Definition check_length (name : string) (min_length max_length : nat)
    (v : str) : list str :=
  if (min_length <=? List.length v)%nat && (List.length v <=? max_length)%nat
  then [] else [lit name].

Definition check_max_length_opt (name : string) (max_length : nat)
    (v : option str) : list str :=
  match v with
  | None => []
  | Some s => if (List.length s <=? max_length)%nat then [] else [lit name]
  end.

(** [ResearchMetadata(...)]: every field is checked against its declared
    bounds; the [project_name] validator runs after the bounds of that
    field held, and its return value is the value stored.  All offending
    fields are reported together. *)
Definition ResearchMetadata_new
    (project_name hypothesis data_source collection_method : str)
    (experiment_id : option str) (date_range : option DateRange)
    (research_phase : option ResearchPhase)
    (privacy_level : option PrivacyLevel) : result ResearchMetadata :=
  let '(project_name', e_project) :=
    match check_length "project_name" 1 200 project_name with
    | [] => match validate_project_name project_name with
            | Ok v => (v, [])
            | Raise _ => (project_name, [lit "project_name"])
            end
    | errs => (project_name, errs)
    end in
  let errors :=
    e_project
    ++ check_length "hypothesis" 1 1000 hypothesis
    ++ check_length "data_source" 1 200 data_source
    ++ check_length "collection_method" 1 200 collection_method
    ++ check_max_length_opt "experiment_id" 100 experiment_id in
  match errors with
  | [] => Ok {| project_name := project_name';
                hypothesis := hypothesis;
                data_source := data_source;
                collection_method := collection_method;
                experiment_id := experiment_id;
                date_range := date_range;
                research_phase := research_phase;
                privacy_level := privacy_level |}
  | _ => Raise (ValidationError (lit "ResearchMetadata") errors)
  end.

(** [UploadInfo(...)]: [file_size_bytes] is declared [gt=0]. *)
Definition UploadInfo_new (timestamp : datetime)
    (uploader original_filename stored_filename file_path : str)
    (file_size_bytes : Z) (file_format : str) : result UploadInfo :=
  if (0 <? file_size_bytes)%Z
  then Ok {| timestamp := timestamp;
             uploader := uploader;
             original_filename := original_filename;
             stored_filename := stored_filename;
             file_path := file_path;
             file_size_bytes := file_size_bytes;
             file_format := file_format |}
  else Raise (ValidationError (lit "UploadInfo") [lit "file_size_bytes"]).

(** [strftime] fields: zero-padded decimal ([%Y] on four digits, which is
    what every platform prints from the year 1000 on). *)
Definition fmt (width : nat) (n : N) : str := zfill width (str_of_N n).

(** [t.strftime('%Y%m%d_%H%M%S')] *)
Definition strftime_compact (t : datetime) : str :=
  fmt 4 (year t) ++ fmt 2 (month t) ++ fmt 2 (day t) ++ lit "_"
  ++ fmt 2 (hour t) ++ fmt 2 (minute t) ++ fmt 2 (second t).

(** [t.strftime('%Y-%m-%d')] *)
Definition strftime_date (t : datetime) : str :=
  fmt 4 (year t) ++ lit "-" ++ fmt 2 (month t) ++ lit "-" ++ fmt 2 (day t).

End Models.

Import Models.

(* ================================================================= *)
(** ** The world: clock and storage client *)

(** What is handed to [client.files.upload]: the bytes of the uploaded
    file, or the JSON rendering of a metadata object. *)
Inductive Body : Type :=
| Blob (data : str)
| MetadataJson (m : UploadMetadata).

(** A call to the storage client. *)
Inductive Call : Type :=
| create_directory (path : str)
| upload (path : str) (body : Body) (overwrite : bool).

(** [calls]: every call made to the client so far, oldest first;
    [ticks]: how many times the clock was read. *)
Record World := {
  calls : list Call;
  ticks : nat
}.

(** What the program does not decide: the instant each clock reading
    returns, whether a client call returns ([None]) or raises an exception
    whose [str()] is the given text, as a function of the calls made before
    it, and the text pydantic renders a validation error to. *)
Record Env := {
  utcnow_at : nat -> datetime;
  files_api : list Call -> Call -> option str;
  validation_error_str : str -> list str -> str
}.

Definition M (A : Type) : Type := World -> result A * World.

Definition ret {A} (a : A) : M A := fun w => (Ok a, w).
Definition raise {A} (e : exn) : M A := fun w => (Raise e, w).

Definition bind {A B} (m : M A) (k : A -> M B) : M B :=
  fun w =>
    match m w with
    | (Ok a, w') => k a w'
    | (Raise e, w') => (Raise e, w')
    end.

(** [try: m  except Exception as e: handler e]; what [m] did to the world
    before raising stays done. *)
Definition try_except {A} (m : M A) (handler : exn -> M A) : M A :=
  fun w =>
    match m w with
    | (Ok a, w') => (Ok a, w')
    | (Raise e, w') => handler e w'
    end.

Definition lift {A} (r : result A) : M A := fun w => (r, w).

Declare Scope py_scope.
Delimit Scope py_scope with py.
Notation "x <- m ;; k" := (bind m (fun x => k))
  (at level 100, m at next level, right associativity) : py_scope.
Notation "' p <- m ;; k" := (bind m (fun x => let p := x in k))
  (at level 100, p pattern, m at next level, right associativity) : py_scope.
Notation "m ;;; k" := (bind m (fun _ => k))
  (at level 100, right associativity) : py_scope.
Open Scope py_scope.

Section WithEnv.

Variable E : Env.

(** [datetime.utcnow()] *)
Definition utcnow : M datetime :=
  fun w => (Ok (utcnow_at E (ticks w)),
            {| calls := calls w; ticks := S (ticks w) |}).

(** One call to [self.client.files]. *)
Definition client_call (c : Call) : M unit :=
  fun w =>
    let w' := {| calls := calls w ++ [c]; ticks := ticks w |} in
    match files_api E (calls w) c with
    | None => (Ok tt, w')
    | Some msg => (Raise (ClientError msg), w')
    end.

(** [str(e)] *)
Definition str_exn (e : exn) : str :=
  match e with
  | HTTPException s d => str_of_Z s ++ lit ": " ++ d
  | ValidationError title fields => validation_error_str E title fields
  | ValueError msg => msg
  | IndexError => lit "list index out of range"
  | ClientError msg => msg
  | Exception msg => msg
  end.

End WithEnv.

(* ================================================================= *)
(** ** server/services/volume_service.py *)

Module VolumeService.

(** The service object: [self.volume_path] (the client is part of [Env]). *)
Record t := {
  volume_path : str
}.

(** The class [[\w\s-]] whose complement the sanitizer deletes. *)
Definition keep_class (c : ascii) : bool :=
  is_word c || isspace c || is_char 45 c.

(** The class [[-\s]] whose runs the sanitizer replaces. *)
Definition sep_class (c : ascii) : bool :=
  is_char 45 c || isspace c.

Definition _sanitize_folder_name (name : str) : str :=
  let sanitized := strip (re_sub_delete_outside keep_class name) in
  let sanitized := re_sub_runs sep_class (lit "-") sanitized in
  lower sanitized.

(** The path arithmetic of [save_metadata]; [path_parts[1]] raises
    [IndexError] when the path has no slash. *)
Definition metadata_path_of (file_path : str) : result str :=
  let path_parts := rsplit1 "/" file_path in
  match nth_error path_parts 0, nth_error path_parts 1 with
  | Some folder_path, Some filename =>
      let name_parts := rsplit1 "." filename in
      match nth_error name_parts 0 with
      | Some base_name =>
          let metadata_filename :=
            lit "metadata_" ++ base_name ++ lit ".json" in
          Ok (folder_path ++ lit "/" ++ metadata_filename)
      | None => Raise IndexError
      end
  | _, _ => Raise IndexError
  end.

Section Methods.

Variable E : Env.
Variable self : t.

Definition _generate_filename (original_filename workflow_type : str) : M str :=
  now <- utcnow E ;;
  let timestamp := strftime_compact now in
  let name_parts := rsplit1 "." original_filename in
  let base_name := nth 0 name_parts [] in
  let extension :=
    if (1 <? List.length name_parts)%nat then nth 1 name_parts [] else [] in
  let new_name := base_name ++ lit "_" ++ workflow_type ++ lit "_" ++ timestamp in
  let new_name :=
    if truthy extension then new_name ++ lit "." ++ extension else new_name in
  ret new_name.

Definition _get_project_folder_path (project_name : str) : M str :=
  let sanitized_project := _sanitize_folder_name project_name in
  now <- utcnow E ;;
  let date_folder := strftime_date now in
  ret (volume_path self ++ lit "/" ++ sanitized_project ++ lit "/" ++ date_folder).

Definition create_project_folder (project_name : str) : M str :=
  folder_path <- _get_project_folder_path project_name ;;
  try_except
    (client_call E (create_directory folder_path) ;;;
     ret folder_path)
    (fun e =>
       if negb (contains (lit "already exists") (lower (str_exn E e)))
       then raise (Exception (lit "Failed to create project folder: "
                              ++ str_exn E e))
       else ret folder_path).

Definition upload_file (file_content : Body)
    (original_filename project_name workflow_type : str) : M (str * str) :=
  folder_path <- create_project_folder project_name ;;
  stored_filename <- _generate_filename original_filename workflow_type ;;
  let full_file_path := folder_path ++ lit "/" ++ stored_filename in
  try_except
    (client_call E (upload full_file_path file_content true) ;;;
     ret (stored_filename, full_file_path))
    (fun e =>
       raise (Exception (lit "Failed to upload file to volume: "
                         ++ str_exn E e))).

Definition save_metadata (metadata : UploadMetadata) (file_path : str) : M str :=
  metadata_path <- lift (metadata_path_of file_path) ;;
  try_except
    (client_call E (upload metadata_path (MetadataJson metadata) true) ;;;
     ret metadata_path)
    (fun e =>
       raise (Exception (lit "Failed to save metadata: " ++ str_exn E e))).

End Methods.

(** The listing.  The read call [client.files.list_directory_contents] is
    answered by [list_directory_contents]: it returns the entries of a
    folder or raises; the entries are opaque to the service. *)
Section Reads.

Variable E : Env.
Variable self : t.
Variable DirectoryEntry : Type.
Variable list_directory_contents : str -> result (list DirectoryEntry).

(** [date] is [None] when the caller leaves the default. *)
Definition list_project_files (project_name : str) (date : option str)
    : M (list DirectoryEntry) :=
  let sanitized_project := _sanitize_folder_name project_name in
  date <- match date with
          | None => now <- utcnow E ;; ret (strftime_date now)
          | Some d => ret d
          end ;;
  let folder_path :=
    volume_path self ++ lit "/" ++ sanitized_project ++ lit "/" ++ date in
  try_except
    (lift (list_directory_contents folder_path))
    (fun e =>
       if contains (lit "does not exist") (lower (str_exn E e))
       then ret []
       else raise (Exception (lit "Failed to list project files: "
                              ++ str_exn E e))).

End Reads.

End VolumeService.

(* ================================================================= *)
(** ** server/services/upload_service.py *)

Module UploadService.

(** [fastapi.UploadFile]: the fields the service reads, and the bytes
    [file.read()] returns. *)
Record UploadFile := {
  filename : option str;
  size : option Z;
  content : str
}.

Record t := {
  volume_service : VolumeService.t;
  max_file_size : Z;
  allowed_types : list str
}.

(** [UploadService()], from the values of [MAX_FILE_SIZE_MB] (already an
    integer), [ALLOWED_FILE_TYPES] and [DATABRICKS_VOLUME_PATH]. *)
Definition __init__ (MAX_FILE_SIZE_MB : Z) (ALLOWED_FILE_TYPES : str)
    (DATABRICKS_VOLUME_PATH : str) : t :=
  {| volume_service := {| VolumeService.volume_path := DATABRICKS_VOLUME_PATH |};
     max_file_size := MAX_FILE_SIZE_MB * 1024 * 1024;
     allowed_types := split "," ALLOWED_FILE_TYPES |}.

(** The defaults of the two [os.getenv] calls. *)
Definition default_service : t :=
  __init__ 100 (lit "csv,json,pdf,xlsx,txt")
           (lit "/Volumes/jmr_demo/intake/storage").

(** [file.size and file.size > limit] *)
Definition size_exceeds (sz : option Z) (limit : Z) : bool :=
  match sz with
  | None => false
  | Some n => negb (n =? 0)%Z && (limit <? n)%Z
  end.

(** [file.size or 0] *)
Definition size_or_0 (sz : option Z) : Z :=
  match sz with Some n => n | None => 0%Z end.

(** [file.filename or 'unknown'] *)
Definition filename_or_unknown (name : option str) : str :=
  match name with
  | Some n => if truthy n then n else lit "unknown"
  | None => lit "unknown"
  end.

(** [file.filename.split('.')[-1].lower()] *)
Definition extension_of (name : str) : str :=
  lower (last_item (split "." name)).

Section Methods.

Variable E : Env.
Variable self : t.

Definition size_error_detail : str :=
  let max_mb := (max_file_size self / (1024 * 1024))%Z in
  lit "File size exceeds maximum allowed size of "
  ++ float_str_of_Z max_mb ++ lit "MB".

Definition type_error_detail (file_extension : str) : str :=
  lit "File type '." ++ file_extension
  ++ lit "' is not allowed. Allowed types: "
  ++ join (lit ", ") (allowed_types self).

Definition _validate_file (file : UploadFile) : result unit :=
  if size_exceeds (size file) (max_file_size self)
  then Raise (HTTPException 413 size_error_detail)
  else
    match filename file with
    | Some name =>
        if truthy name then
          let file_extension := extension_of name in
          if negb (mem file_extension (allowed_types self))
          then Raise (HTTPException 400 (type_error_detail file_extension))
          else Ok tt
        else Ok tt
    | None => Ok tt
    end.

Definition _create_upload_info (file : UploadFile)
    (stored_filename file_path uploader_email : str) : M UploadInfo :=
  let file_extension :=
    match filename file with
    | Some name => if truthy name then extension_of name else []
    | None => []
    end in
  now <- utcnow E ;;
  lift (UploadInfo_new now uploader_email
          (filename_or_unknown (filename file))
          stored_filename file_path
          (size_or_0 (size file)) file_extension).

Definition process_upload (file : UploadFile)
    (upload_request : FileUploadRequest) (uploader_email : str)
    : M FileUploadResponse :=
  try_except
    (lift (_validate_file file) ;;;
     let file_content := content file in
     let file_stream := Blob file_content in
     ' (stored_filename, file_path) <-
       VolumeService.upload_file E (volume_service self) file_stream
         (filename_or_unknown (filename file))
         (project_name (req_research_metadata upload_request))
         (WorkflowType_value
            (workflow_type (req_technical_metadata upload_request))) ;;
     upload_info <-
       _create_upload_info file stored_filename file_path uploader_email ;;
     let metadata :=
       {| upload_info := upload_info;
          technical_metadata := req_technical_metadata upload_request;
          research_metadata := req_research_metadata upload_request |} in
     metadata_path <- VolumeService.save_metadata E metadata file_path ;;
     ret {| success := true;
            message := lit "File uploaded successfully";
            resp_upload_info := upload_info;
            resp_research_metadata := req_research_metadata upload_request;
            resp_technical_metadata := req_technical_metadata upload_request;
            metadata_file_path := metadata_path |})
    (fun e =>
       if is_HTTPException e then raise e
       else raise (HTTPException 500 (lit "Upload failed: " ++ str_exn E e))).

End Methods.

(** The dictionary [get_upload_stats] returns.  [max_file_size_mb] is the
    quotient [max_file_size / (1024 * 1024)] of Python's true division,
    kept as the exact rational.  The float Python computes is the
    binary64 number nearest to that rational: the two agree when
    [|max_file_size| <= 2^53], and when the quotient is an integer of
    magnitude at most [2^53]; beyond that the float is rounded and this
    field no longer describes it. *)
Record UploadStats := {
  max_file_size_mb : QArith_base.Q;
  allowed_file_types : list str;
  stats_volume_path : str
}.

Definition get_upload_stats (self : t) : UploadStats :=
  {| max_file_size_mb :=
       QArith_base.Qdiv (QArith_base.inject_Z (max_file_size self))
                        (QArith_base.inject_Z (1024 * 1024));
     allowed_file_types := allowed_types self;
     stats_volume_path := VolumeService.volume_path (volume_service self) |}.

End UploadService.

(* ================================================================= *)
(** ** server/routers/upload.py *)

Module Router.

Import UploadService.

(** The loop of [parse_form_data] over the comma-separated
    [processing_requirements] field. *)
Definition parse_processing_requirements (processing_requirements : str)
    : list ProcessingRequirement :=
  if truthy (strip processing_requirements) then
    let req_list := map strip (split "," processing_requirements) in
    fold_left
      (fun proc_reqs req =>
         match ProcessingRequirement_call req with
         | Ok r => proc_reqs ++ [r]
         | Raise _ => proc_reqs
         end)
      req_list []
  else [].

Definition parse_form_data
    (project_name hypothesis data_source collection_method : str)
    (workflow_type : WorkflowType)
    (experiment_id date_range_start date_range_end : option str)
    (research_phase : option ResearchPhase)
    (privacy_level : option PrivacyLevel)
    (processing_requirements : str) : result FileUploadRequest :=
  let date_range :=
    if truthy_opt date_range_start || truthy_opt date_range_end
    then Some {| start := date_range_start; end_ := date_range_end |}
    else None in
  let proc_reqs := parse_processing_requirements processing_requirements in
  match ResearchMetadata_new project_name hypothesis data_source
          collection_method experiment_id date_range research_phase
          privacy_level with
  | Raise e => Raise e
  | Ok research_metadata =>
      let technical_metadata :=
        {| workflow_type := workflow_type;
           processing_requirements := proc_reqs |} in
      Ok {| req_research_metadata := research_metadata;
            req_technical_metadata := technical_metadata |}
  end.

(** The multipart body of [POST /upload/], as the framework hands it to
    the dependency and the handler. *)
Record Form := {
  form_project_name : str;
  form_hypothesis : str;
  form_data_source : str;
  form_collection_method : str;
  form_workflow_type : WorkflowType;
  form_experiment_id : option str;
  form_date_range_start : option str;
  form_date_range_end : option str;
  form_research_phase : option ResearchPhase;
  form_privacy_level : option PrivacyLevel;
  form_processing_requirements : str;
  form_file : UploadFile
}.

Section Routes.

Variable E : Env.
(** [UploadService()], which the handler builds from the environment. *)
Variable upload_service : UploadService.t.
(** [current_user.email] when the user object has one. *)
Variable current_user_email : option str.

(** The handler of [POST /upload/]. *)
Definition upload_file (file : UploadFile)
    (upload_request : FileUploadRequest) : M FileUploadResponse :=
  let uploader_email :=
    match current_user_email with
    | Some email => email
    | None => lit "unknown@databricks.com"
    end in
  try_except
    (process_upload E upload_service file upload_request uploader_email)
    (fun e => raise (HTTPException 500 (str_exn E e))).

(** The route: the dependency [parse_form_data] is resolved first, and the
    handler runs only when it returned. *)
Definition post_upload (form : Form) : M FileUploadResponse :=
  upload_request <-
    lift (parse_form_data
            (form_project_name form) (form_hypothesis form)
            (form_data_source form) (form_collection_method form)
            (form_workflow_type form) (form_experiment_id form)
            (form_date_range_start form) (form_date_range_end form)
            (form_research_phase form) (form_privacy_level form)
            (form_processing_requirements form)) ;;
  upload_file (form_file form) upload_request.

End Routes.

(** The handler of [GET /upload/config], given the service it builds. *)
Definition get_upload_config (upload_service : UploadService.t)
    : UploadStats :=
  get_upload_stats upload_service.

End Router.

(* ================================================================= *)
(** * Specification-side definitions and sample inputs *)

Import UploadService.

(** ** Words of the specification *)

(** The values of the closed set, as the specification lists them. *)
Definition known_requirement_values : list str :=
  [lit "cleaning-needed"; lit "validation-required";
   lit "transformation-ready"].

(** The tokens of the field: the comma-separated pieces, each trimmed. *)
Definition requirement_tokens (s : str) : list str :=
  map strip (split "," s).

(** The character set [[A-Za-z0-9 _-]] of project names. *)
Definition allowed_char (c : ascii) : bool :=
  is_ascii_upper c || is_ascii_lower c || is_ascii_digit c
  || is_char 32 c || is_char 95 c || is_char 45 c.

(** A space or a hyphen. *)
Definition space_or_hyphen (c : ascii) : bool :=
  is_char 32 c || is_char 45 c.

(** The maximal runs of a string: consecutive blocks, each made of
    separators only (flag [true]) or of other characters only (flag
    [false]), neighbouring blocks having different flags. *)
Fixpoint runs (p : ascii -> bool) (s : str) : list (bool * str) :=
  match s with
  | [] => []
  | c :: s' =>
      match runs p s' with
      | (b, r) :: rest =>
          if Bool.eqb b (p c) then (b, c :: r) :: rest
          else (p c, [c]) :: (b, r) :: rest
      | [] => [(p c, [c])]
      end
  end.

(** A run of separators is written as one hyphen, any other run as it is. *)
Definition render_run (run : bool * str) : str :=
  if fst run then lit "-" else snd run.

(** The sanitization as the specification words it: every maximal run of
    spaces and hyphens becomes one hyphen, everything else is kept. *)
Definition collapse_runs (s : str) : str :=
  List.concat (map render_run (runs space_or_hyphen s)).

(** Two hyphens in a row occur somewhere in [s]. *)
Fixpoint has_double_hyphen (s : str) : bool :=
  match s with
  | a :: (b :: _) as t => (is_char 45 a && is_char 45 b) || has_double_hyphen t
  | _ => false
  end.

(** [s] starts with a hyphen. *)
Definition head_is_hyphen (s : str) : bool :=
  match s with c :: _ => is_char 45 c | [] => false end.

(** The type check of [_validate_file] lets the file through: it has no
    filename, or its extension is in the allow-list. *)
Definition type_allowed (self : UploadService.t) (file : UploadFile) : bool :=
  match filename file with
  | Some name =>
      negb (truthy name) || mem (extension_of name) (allowed_types self)
  | None => true
  end.

(** The request the dependency [parse_form_data] builds from a form. *)
Definition form_request (form : Router.Form) : result FileUploadRequest :=
  Router.parse_form_data
    (Router.form_project_name form) (Router.form_hypothesis form)
    (Router.form_data_source form) (Router.form_collection_method form)
    (Router.form_workflow_type form) (Router.form_experiment_id form)
    (Router.form_date_range_start form) (Router.form_date_range_end form)
    (Router.form_research_phase form) (Router.form_privacy_level form)
    (Router.form_processing_requirements form).

(** The storage client creates any folder and stores any blob. *)
Definition accepts_blob_upload (E : Env) : Prop :=
  (forall h p, files_api E h (create_directory p) = None)
  /\ (forall h p d, files_api E h (upload p (Blob d) true) = None).

(** ** Environments *)

(** 2024-01-15T10:30:00Z *)
Definition instant_2024_01_15_103000 : datetime :=
  {| year := 2024; month := 1; day := 15;
     hour := 10; minute := 30; second := 0; microsecond := 0 |}.

(** [E] with its clock stopped at [t]. *)
Definition at_instant (t : datetime) (E : Env) : Env :=
  {| utcnow_at := fun _ => t;
     files_api := files_api E;
     validation_error_str := validation_error_str E |}.

(** [E] with a storage client that accepts every call. *)
Definition accepting (E : Env) : Env :=
  {| utcnow_at := utcnow_at E;
     files_api := fun _ _ => None;
     validation_error_str := validation_error_str E |}.

(** An environment for the examples: the clock stopped, a client that
    accepts every call. *)
Definition quiet_env : Env :=
  {| utcnow_at := fun _ => instant_2024_01_15_103000;
     files_api := fun _ _ => None;
     validation_error_str := fun title _ => title |}.

(** No call made yet, the clock never read. *)
Definition empty_world : World := {| calls := []; ticks := 0 |}.

(** ** Sample requests and files *)

(** Valid metadata around a given project name. *)
Definition sample_research_metadata (name : str) : ResearchMetadata :=
  {| project_name := name;
     hypothesis := lit "Does it scale?";
     data_source := lit "lab";
     collection_method := lit "survey";
     experiment_id := None;
     date_range := None;
     research_phase := None;
     privacy_level := None |}.

Definition sample_request (name : str) (w : WorkflowType) : FileUploadRequest :=
  {| req_research_metadata := sample_research_metadata name;
     req_technical_metadata :=
       {| workflow_type := w; processing_requirements := [] |} |}.

Definition sample_form (name : str) (file : UploadFile) : Router.Form :=
  {| Router.form_project_name := name;
     Router.form_hypothesis := lit "Does it scale?";
     Router.form_data_source := lit "lab";
     Router.form_collection_method := lit "survey";
     Router.form_workflow_type := CSV;
     Router.form_experiment_id := None;
     Router.form_date_range_start := None;
     Router.form_date_range_end := None;
     Router.form_research_phase := None;
     Router.form_privacy_level := None;
     Router.form_processing_requirements := [];
     Router.form_file := file |}.

(** One byte over the default ceiling of 100 MB. *)
Definition oversized_csv : UploadFile :=
  {| filename := Some (lit "data.csv");
     size := Some 104857601%Z;
     content := [] |}.

(** Exactly the default ceiling of 100 MB. *)
Definition full_size_csv : UploadFile :=
  {| filename := Some (lit "data.csv");
     size := Some 104857600%Z;
     content := [] |}.

(** A file reporting no bytes. *)
Definition empty_csv : UploadFile :=
  {| filename := Some (lit "data.csv");
     size := Some 0%Z;
     content := [] |}.

(** A type outside the default allow-list. *)
Definition small_exe : UploadFile :=
  {| filename := Some (lit "tool.exe");
     size := Some 10%Z;
     content := lit "0123456789" |}.

(** A filename without a dot that spells an allowed type. *)
Definition dotless_csv : UploadFile :=
  {| filename := Some (lit "csv");
     size := Some 10%Z;
     content := lit "0123456789" |}.

(** An empty filename. *)
Definition nameless_file : UploadFile :=
  {| filename := Some [];
     size := Some 10%Z;
     content := lit "0123456789" |}.

(** A filename without a dot that spells no allowed type. *)
Definition readme_file : UploadFile :=
  {| filename := Some (lit "README");
     size := Some 10%Z;
     content := lit "0123456789" |}.

(** ** Words of the further properties *)

(** The length of [v] lies between [lo] and [hi], both included. *)
Definition within (lo hi : nat) (v : str) : bool :=
  (lo <=? List.length v)%nat && (List.length v <=? hi)%nat.

(** A project name the model accepts: 1 to 200 characters, all of them in
    the class of the pattern. *)
Definition project_name_ok (v : str) : bool :=
  within 1 200 v && forallb project_name_class v.

Definition experiment_id_ok (v : option str) : bool :=
  match v with
  | None => true
  | Some s => (List.length s <=? 100)%nat
  end.

(** The fields pydantic reports, in the order of their declaration. *)
Definition offending_fields
    (project_name hypothesis data_source collection_method : str)
    (experiment_id : option str) : list str :=
  (if project_name_ok project_name then [] else [lit "project_name"])
  ++ (if within 1 1000 hypothesis then [] else [lit "hypothesis"])
  ++ (if within 1 200 data_source then [] else [lit "data_source"])
  ++ (if within 1 200 collection_method then []
      else [lit "collection_method"])
  ++ (if experiment_id_ok experiment_id then [] else [lit "experiment_id"]).

(** A lowercase word character or a hyphen: what a folder segment is made
    of. *)
Definition folder_char (c : ascii) : bool :=
  (is_word c && negb (is_upper c)) || is_char 45 c.

(** One of [[a-z0-9_-]]. *)
Definition segment_char (c : ascii) : bool :=
  is_ascii_lower c || is_ascii_digit c || is_char 95 c || is_char 45 c.

(** A character a timestamp is written with: a digit or the underscore. *)
Definition stamp_char (c : ascii) : bool :=
  is_ascii_digit c || is_char 95 c.

(** A file named [base.ext], the dot being the last one of the name. *)
Definition dotted (base ext : str) : str := base ++ "."%char :: ext.

(** The folder of a project when the clock is read for the [k]-th time. *)
Definition project_folder (E : Env) (self : VolumeService.t)
    (project : str) (k : nat) : str :=
  VolumeService.volume_path self ++ lit "/"
  ++ VolumeService._sanitize_folder_name project
  ++ lit "/" ++ strftime_date (utcnow_at E k).

(** The name [_generate_filename] returns when the clock is read for the
    [k]-th time. *)
Definition stored_name (E : Env) (original_filename workflow_type : str)
    (k : nat) : str :=
  match fst (VolumeService._generate_filename E original_filename
               workflow_type {| calls := []; ticks := k |}) with
  | Ok name => name
  | Raise _ => []
  end.

(** The client's answer to [create_directory] lets the upload go on: the
    call returned, or it raised with "already exists" in its text. *)
Definition folder_ready (answer : option str) : bool :=
  match answer with
  | None => true
  | Some msg => contains (lit "already exists") (lower msg)
  end.

(** The world after [n] more clock readings and the calls [new]. *)
Definition later (w : World) (new : list Call) (n : nat) : World :=
  {| calls := calls w ++ new; ticks := n + ticks w |}.

(** The three calls of an upload, in the order they are made. *)
Definition folder_call (E : Env) (self : UploadService.t)
    (req : FileUploadRequest) (w : World) : Call :=
  create_directory
    (project_folder E (volume_service self)
       (project_name (req_research_metadata req)) (ticks w)).

Definition blob_path (E : Env) (self : UploadService.t) (file : UploadFile)
    (req : FileUploadRequest) (w : World) : str :=
  project_folder E (volume_service self)
    (project_name (req_research_metadata req)) (ticks w)
  ++ lit "/"
  ++ stored_name E (filename_or_unknown (filename file))
       (WorkflowType_value (workflow_type (req_technical_metadata req)))
       (S (ticks w)).

Definition blob_call (E : Env) (self : UploadService.t) (file : UploadFile)
    (req : FileUploadRequest) (w : World) : Call :=
  upload (blob_path E self file req w) (Blob (content file)) true.

(** The text of the exception the client raised ([None]: it returned). *)
Definition answer_text (answer : option str) : str :=
  match answer with Some msg => msg | None => [] end.

(** The format [_create_upload_info] records. *)
Definition file_format_of (file : UploadFile) : str :=
  match filename file with
  | Some name => if truthy name then extension_of name else []
  | None => []
  end.

(** The 500 error [process_upload] turns any other exception into. *)
Definition upload_failed (text : str) : exn :=
  HTTPException 500 (lit "Upload failed: " ++ text).

(** A client that finds every folder already there. *)
Definition already_there_env : Env :=
  {| utcnow_at := fun _ => instant_2024_01_15_103000;
     files_api := fun _ c =>
       match c with
       | create_directory _ => Some (lit "RESOURCE_ALREADY_EXISTS: Already Exists")
       | upload _ _ _ => None
       end;
     validation_error_str := fun title _ => title |}.

(** A client that stores blobs and refuses every sidecar. *)
Definition no_json_env : Env :=
  {| utcnow_at := fun _ => instant_2024_01_15_103000;
     files_api := fun _ c =>
       match c with
       | upload _ (MetadataJson _) _ => Some (lit "quota exceeded")
       | _ => None
       end;
     validation_error_str := fun title _ => title |}.

(* ================================================================= *)
(** * Properties *)

(** ** Strings: splitting *)

Lemma break_at_app (sep : ascii) (x y : str) :
  ~ In sep x -> break_at sep (x ++ sep :: y) = (x, Some y).
Proof.
  induction x as [|c x IH]; cbn [app break_at]; intros Hx.
  - destruct (ascii_dec sep sep) as [_|Hne]; [reflexivity | now destruct Hne].
  - destruct (ascii_dec c sep) as [->|_].
    + exfalso; apply Hx; now left.
    + rewrite IH; [reflexivity | intros H; apply Hx; now right].
Qed.

Lemma break_at_absent (sep : ascii) (x : str) :
  ~ In sep x -> break_at sep x = (x, None).
Proof.
  induction x as [|c x IH]; cbn [break_at]; intros Hx; [reflexivity|].
  destruct (ascii_dec c sep) as [->|_].
  - exfalso; apply Hx; now left.
  - rewrite IH; [reflexivity | intros H; apply Hx; now right].
Qed.

(** [rsplit(sep, 1)] cuts at the last separator. *)
Lemma rsplit1_app (sep : ascii) (a b : str) :
  ~ In sep b -> rsplit1 sep (a ++ sep :: b) = [a; b].
Proof.
  intros Hb. unfold rsplit1.
  rewrite rev_app_distr. simpl. rewrite <- app_assoc. simpl.
  rewrite break_at_app by (now rewrite <- in_rev).
  now rewrite !rev_involutive.
Qed.

(** Without separator, [split] returns the string itself. *)
Lemma split_absent (sep : ascii) (s : str) :
  ~ In sep s -> split sep s = [s].
Proof.
  induction s as [|c s IH]; cbn [split]; intros Hs; [reflexivity|].
  destruct (ascii_dec c sep) as [->|_].
  - exfalso; apply Hs; now left.
  - rewrite IH; [reflexivity | intros H; apply Hs; now right].
Qed.

Lemma str_eqb_eq (a b : str) : str_eqb a b = true <-> a = b.
Proof.
  unfold str_eqb. destruct (list_eq_dec ascii_dec a b); split; congruence.
Qed.

Lemma str_eqb_refl (a : str) : str_eqb a a = true.
Proof. now apply str_eqb_eq. Qed.

Lemma mem_In (x : str) (l : list str) : mem x l = true <-> In x l.
Proof.
  unfold mem. rewrite existsb_exists. split.
  - intros (y & Hy & Heq). apply str_eqb_eq in Heq. now subst.
  - intros H. exists x. split; [assumption | apply str_eqb_refl].
Qed.

(** ** C3: naming and layout *)

(** C3.  With project "Acme Corp", workflow type "csv", original filename
    "data.csv" and the clock at 2024-01-15T10:30:00Z for every reading,
    under any storage root: the project folder is
    [root/acme-corp/2024-01-15], the stored filename is
    [data_csv_20240115_103000.csv], the sidecar path derived from the stored
    file's path is [metadata_data_csv_20240115_103000.json] in that same
    folder, and that is the path [save_metadata] uploads to. *)
Theorem naming_acme_corp_example :
  forall (E0 : Env) (root : str) (w : World) (metadata : UploadMetadata),
    let E := at_instant instant_2024_01_15_103000 E0 in
    let self := {| VolumeService.volume_path := root |} in
    let folder := root ++ lit "/acme-corp/2024-01-15" in
    let stored := lit "data_csv_20240115_103000.csv" in
    let sidecar := folder ++ lit "/metadata_data_csv_20240115_103000.json" in
    fst (VolumeService._get_project_folder_path E self (lit "Acme Corp") w)
      = Ok folder
    /\ fst (VolumeService._generate_filename E (lit "data.csv") (lit "csv") w)
      = Ok stored
    /\ VolumeService.metadata_path_of (folder ++ lit "/" ++ stored) = Ok sidecar
    /\ calls (snd (VolumeService.save_metadata E metadata
                     (folder ++ lit "/" ++ stored) w))
      = calls w ++ [upload sidecar (MetadataJson metadata) true].
Proof.
  intros E0 root w metadata E self folder stored sidecar.
  assert (Hpath : VolumeService.metadata_path_of (folder ++ lit "/" ++ stored)
                  = Ok sidecar).
  { unfold VolumeService.metadata_path_of.
    change (folder ++ lit "/" ++ stored) with (folder ++ "/"%char :: stored).
    rewrite rsplit1_app.
    - simpl nth_error. subst sidecar. reflexivity.
    - vm_compute. intuition discriminate. }
  split; [|split; [|split]].
  - unfold VolumeService._get_project_folder_path, bind, utcnow, ret. simpl fst.
    subst folder. reflexivity.
  - reflexivity.
  - exact Hpath.
  - unfold VolumeService.save_metadata, bind, lift, try_except.
    rewrite Hpath. unfold client_call, bind, ret, raise.
    destruct (files_api E (calls w) _); reflexivity.
Qed.

(** ** C1: the status the route reports for file-policy errors *)

(** C1.  The code at the failing inputs: with the default configuration
    (100 MB, csv/json/pdf/xlsx/txt), a file reporting 104857601 bytes and a
    file named "tool.exe" make [process_upload] raise the 413 and the 400
    [HTTPException], but the handler of [POST /upload/] catches them with
    its [except Exception] and the caller gets status 500 in both cases. *)
Theorem policy_errors_surface_as_500 :
  forall (E : Env) (user : option str) (w : World),
    let svc := default_service in
    let req := sample_request (lit "Acme Corp") CSV in
    fst (process_upload E svc oversized_csv req (lit "a@b.c") w)
      = Raise (HTTPException 413
                 (lit "File size exceeds maximum allowed size of 100.0MB"))
    /\ fst (process_upload E svc small_exe req (lit "a@b.c") w)
      = Raise (HTTPException 400
                 (lit "File type '.exe' is not allowed. Allowed types: csv, json, pdf, xlsx, txt"))
    /\ response_status (fst (Router.upload_file E svc user oversized_csv req w))
       = 500%Z
    /\ response_status (fst (Router.upload_file E svc user small_exe req w))
       = 500%Z
    /\ response_status
         (fst (Router.post_upload E svc user
                 (sample_form (lit "Acme Corp") oversized_csv) w)) = 500%Z
    /\ response_status
         (fst (Router.post_upload E svc user
                 (sample_form (lit "Acme Corp") small_exe) w)) = 500%Z.
Proof.
  intros E user w svc req.
  split; [reflexivity|]. split; [reflexivity|].
  split; [reflexivity|]. split; [reflexivity|].
  split; reflexivity.
Qed.

(** ** C2: a project name of spaces only *)

(** C2.  The code at the failing input: a project name of three spaces
    passes the length bounds (3 characters) and the pattern (a space is in
    the class), the validator returns its trimmed form, and the model is
    built with an empty [project_name]; [parse_form_data] returns it. *)
Theorem blank_project_name_is_accepted :
  ResearchMetadata_new (lit "   ") (lit "Does it scale?") (lit "lab")
    (lit "survey") None None None None
    = Ok (sample_research_metadata [])
  /\ Router.parse_form_data (lit "   ") (lit "Does it scale?") (lit "lab")
       (lit "survey") CSV None None None None None []
     = Ok (sample_request [] CSV)
  /\ strip (project_name (sample_research_metadata [])) = [].
Proof.
  split; [reflexivity|]. split; reflexivity.
Qed.

(** ** C8: the file format of a file named without a dot *)

(** C8.  The code at the failing input: a 10-byte file named "csv" (no
    dot) passes validation under the default configuration, the upload
    succeeds when the storage client accepts the calls, and the
    [file_format] of the response is "csv", not the empty string; the
    stored filename carries no extension. *)
Theorem dotless_filename_file_format :
  forall (E0 : Env) (user : option str),
    let E := accepting (at_instant instant_2024_01_15_103000 E0) in
    let req := sample_request (lit "Acme Corp") CSV in
    exists resp : FileUploadResponse,
      fst (Router.upload_file E default_service user dotless_csv req empty_world)
        = Ok resp
      /\ file_format (resp_upload_info resp) = lit "csv"
      /\ file_format (resp_upload_info resp) <> []
      /\ stored_filename (resp_upload_info resp)
         = lit "csv_csv_20240115_103000".
Proof.
  intros E0 user E req.
  eexists. split; [reflexivity|].
  split; [reflexivity|]. split; [discriminate | reflexivity].
Qed.

(** ** Strings: trimming *)

Lemma dropwhile_all (p : ascii -> bool) (s : str) :
  forallb p s = true -> dropwhile p s = [].
Proof.
  induction s as [|c s IH]; cbn [forallb dropwhile]; [reflexivity|].
  intros H. apply andb_true_iff in H as [Hc Hs]. rewrite Hc. now apply IH.
Qed.

Lemma dropwhile_nil (p : ascii -> bool) (s : str) :
  dropwhile p s = [] -> forallb p s = true.
Proof.
  induction s as [|c s IH]; cbn [forallb dropwhile]; [reflexivity|].
  destruct (p c); [exact IH | discriminate].
Qed.

(** What [dropwhile] leaves starts with a character outside [p]. *)
Lemma dropwhile_head (p : ascii -> bool) (s : str) (c : ascii) (t : str) :
  dropwhile p s = c :: t -> p c = false.
Proof.
  induction s as [|a s IH]; cbn [dropwhile]; [discriminate|].
  destruct (p a) eqn:Ha; [exact IH|].
  intros H. injection H as -> _. exact Ha.
Qed.

Lemma forallb_rev (p : ascii -> bool) (s : str) :
  forallb p (rev s) = forallb p s.
Proof.
  induction s as [|c s IH]; [reflexivity|].
  cbn [rev forallb]. rewrite forallb_app, IH. cbn [forallb].
  rewrite andb_true_r. apply andb_comm.
Qed.

Lemma strip_all_space (s : str) :
  forallb isspace s = true -> strip s = [].
Proof.
  intros H. unfold strip, lstrip, rstrip.
  now rewrite (dropwhile_all _ _ H).
Qed.

Lemma strip_nil_all_space (s : str) :
  strip s = [] -> forallb isspace s = true.
Proof.
  unfold strip, rstrip, lstrip. intros H.
  assert (Hr : dropwhile isspace (rev (dropwhile isspace s)) = []).
  { rewrite <- (rev_involutive (dropwhile isspace (rev _))). now rewrite H. }
  apply dropwhile_nil in Hr. rewrite forallb_rev in Hr.
  destruct (dropwhile isspace s) as [|c t] eqn:Hd.
  - now apply dropwhile_nil.
  - apply dropwhile_head in Hd. cbn [forallb] in Hr.
    rewrite Hd in Hr. discriminate.
Qed.

(** The pieces [split] returns are made of characters of the string. *)
Lemma split_chars (sep : ascii) (s tok : str) (c : ascii) :
  In tok (split sep s) -> In c tok -> In c s.
Proof.
  revert tok. induction s as [|a s IH]; cbn [split]; intros tok Htok Hc.
  - destruct Htok as [<-|[]]. destruct Hc.
  - destruct (ascii_dec a sep) as [->|_].
    + destruct Htok as [<-|Htok]; [destruct Hc|].
      right. eapply IH; eassumption.
    + destruct (split sep s) as [|h t] eqn:Hsp.
      * destruct Htok as [<-|[]]. destruct Hc as [<-|[]]. now left.
      * destruct Htok as [<-|Htok].
        -- destruct Hc as [<-|Hc]; [now left|].
           right. apply (IH h); [now left | assumption].
        -- right. apply (IH tok); [now right | assumption].
Qed.

(** ** C5: the processing-requirements field *)

Lemma ProcessingRequirement_call_spec (tok : str) :
  match ProcessingRequirement_call tok with
  | Ok r => ProcessingRequirement_value r = tok
            /\ mem tok known_requirement_values = true
  | Raise _ => mem tok known_requirement_values = false
  end.
Proof.
  unfold ProcessingRequirement_call, ProcessingRequirement_members, mem,
    known_requirement_values.
  cbn [find existsb ProcessingRequirement_value].
  destruct (list_eq_dec ascii_dec (lit "cleaning-needed") tok) as [<-|N1];
    [split; reflexivity|].
  destruct (list_eq_dec ascii_dec (lit "validation-required") tok) as [<-|N2];
    [split; reflexivity|].
  destruct (list_eq_dec ascii_dec (lit "transformation-ready") tok) as [<-|N3];
    [split; reflexivity|].
  unfold str_eqb.
  destruct (list_eq_dec ascii_dec (lit "cleaning-needed") tok);
    [contradiction|].
  destruct (list_eq_dec ascii_dec (lit "validation-required") tok);
    [contradiction|].
  destruct (list_eq_dec ascii_dec (lit "transformation-ready") tok);
    [contradiction|].
  destruct (list_eq_dec ascii_dec tok (lit "cleaning-needed"));
    [congruence|].
  destruct (list_eq_dec ascii_dec tok (lit "validation-required"));
    [congruence|].
  destruct (list_eq_dec ascii_dec tok (lit "transformation-ready"));
    [congruence|].
  reflexivity.
Qed.

(** The loop appends, so it keeps the order of the tokens. *)
Lemma requirements_loop (toks : list str) (acc : list ProcessingRequirement) :
  map ProcessingRequirement_value
    (fold_left
       (fun proc_reqs req =>
          match ProcessingRequirement_call req with
          | Ok r => proc_reqs ++ [r]
          | Raise _ => proc_reqs
          end) toks acc)
  = map ProcessingRequirement_value acc
    ++ filter (fun tok => mem tok known_requirement_values) toks.
Proof.
  revert acc. induction toks as [|tok toks IH]; intros acc;
    cbn [fold_left filter].
  - now rewrite app_nil_r.
  - rewrite IH. pose proof (ProcessingRequirement_call_spec tok) as Hs.
    destruct (ProcessingRequirement_call tok) as [r|e].
    + destruct Hs as [Hv Hm]. rewrite Hm, map_app. cbn [map].
      rewrite Hv, <- app_assoc. reflexivity.
    + rewrite Hs. reflexivity.
Qed.

(** C5.  For every field value, the values of the parsed requirements are
    exactly the trimmed tokens that belong to the closed set, in their
    original order (every other token is dropped, and the parse returns a
    list whatever the input: it cannot raise); on
    "cleaning-needed, bogus-value, validation-required" the result is
    [[CLEANING_NEEDED; VALIDATION_REQUIRED]]. *)
Theorem processing_requirements_kept_in_order :
  (forall s : str,
     map ProcessingRequirement_value (Router.parse_processing_requirements s)
     = filter (fun tok => mem tok known_requirement_values)
              (requirement_tokens s))
  /\ Router.parse_processing_requirements
       (lit "cleaning-needed, bogus-value, validation-required")
     = [CLEANING_NEEDED; VALIDATION_REQUIRED]
  /\ map ProcessingRequirement_value [CLEANING_NEEDED; VALIDATION_REQUIRED]
     = [lit "cleaning-needed"; lit "validation-required"].
Proof.
  split; [|split; reflexivity].
  intros s. unfold Router.parse_processing_requirements, requirement_tokens.
  destruct (truthy (strip s)) eqn:Ht.
  - now rewrite requirements_loop.
  - assert (Hs : strip s = []) by (destruct (strip s); [reflexivity | discriminate]).
    apply strip_nil_all_space in Hs. rewrite forallb_forall in Hs.
    cbn [map]. symmetry.
    assert (Hall : forall toks,
               (forall tok, In tok toks -> strip tok = []) ->
               filter (fun tok => mem tok known_requirement_values)
                      (map strip toks) = []).
    { induction toks as [|t toks IH]; intros Hts; [reflexivity|].
      cbn [map filter]. rewrite (Hts t) by now left.
      cbn. apply IH. intros tok Hin. apply Hts. now right. }
    apply Hall. intros tok Hin. apply strip_all_space.
    apply forallb_forall. intros c Hc. apply Hs.
    eapply split_chars; eassumption.
Qed.

(** ** C6: the folder-name sanitizer *)

Lemma runs_head (p : ascii -> bool) (c : ascii) (s : str) :
  exists r rest, runs p (c :: s) = (p c, c :: r) :: rest.
Proof.
  cbn [runs]. destruct (runs p s) as [|[b r] rest]; [now exists [], []|].
  destruct (Bool.eqb b (p c)) eqn:Hb.
  - apply Bool.eqb_prop in Hb. subst b. now exists r, rest.
  - now exists [], ((b, r) :: rest).
Qed.

Lemma runs_cons_sep (p : ascii -> bool) (c : ascii) (s : str) :
  p c = true ->
  List.concat (map render_run (runs p (c :: s)))
  = "-"%char :: match s with
                | [] => []
                | c' :: _ =>
                    if p c' then tl (List.concat (map render_run (runs p s)))
                    else List.concat (map render_run (runs p s))
                end.
Proof.
  intros Hc. destruct s as [|c' s']; [cbn; now rewrite Hc|].
  destruct (runs_head p c' s') as (r & rest & Hr).
  change (runs p (c :: c' :: s'))
    with (match runs p (c' :: s') with
          | (b, r) :: rest =>
              if Bool.eqb b (p c) then (b, c :: r) :: rest
              else (p c, [c]) :: (b, r) :: rest
          | [] => [(p c, [c])]
          end).
  rewrite Hr, Hc. destruct (p c') eqn:Hc'; cbn [Bool.eqb map List.concat].
  - unfold render_run at 1 3. cbn. reflexivity.
  - unfold render_run at 1. cbn. reflexivity.
Qed.

Lemma runs_cons_other (p : ascii -> bool) (c : ascii) (s : str) :
  p c = false ->
  List.concat (map render_run (runs p (c :: s)))
  = c :: List.concat (map render_run (runs p s)).
Proof.
  intros Hc. destruct s as [|c' s']; [cbn; now rewrite Hc|].
  destruct (runs_head p c' s') as (r & rest & Hr).
  change (runs p (c :: c' :: s'))
    with (match runs p (c' :: s') with
          | (b, r) :: rest =>
              if Bool.eqb b (p c) then (b, c :: r) :: rest
              else (p c, [c]) :: (b, r) :: rest
          | [] => [(p c, [c])]
          end).
  rewrite Hr, Hc. destruct (p c') eqn:Hc'; cbn [Bool.eqb map List.concat].
  - unfold render_run at 1. cbn. reflexivity.
  - unfold render_run at 1 3. cbn. reflexivity.
Qed.

(** The scan of [re.sub] and the rendering of the maximal runs agree
    wherever the two classes agree. *)
Lemma re_sub_runs_from_runs (cls p : ascii -> bool) (s : str) :
  (forall c, In c s -> cls c = p c) ->
  re_sub_runs_from cls (lit "-") false s = List.concat (map render_run (runs p s))
  /\ re_sub_runs_from cls (lit "-") true s
     = match s with
       | [] => []
       | c :: _ =>
           if p c then tl (List.concat (map render_run (runs p s)))
           else List.concat (map render_run (runs p s))
       end.
Proof.
  induction s as [|c s IH]; intros Hagree; [split; reflexivity|].
  assert (Hc : cls c = p c) by (apply Hagree; now left).
  destruct IH as [IHf IHt]; [intros x Hx; apply Hagree; now right|].
  cbn [re_sub_runs_from]. rewrite Hc.
  destruct (p c) eqn:Hpc.
  - rewrite (runs_cons_sep p c s Hpc), IHt. cbn [app tl]. split.
    + destruct s as [|c' s']; reflexivity.
    + destruct s as [|c' s']; reflexivity.
  - rewrite (runs_cons_other p c s Hpc), IHf. split; reflexivity.
Qed.

(** Facts about single code points, checked on all 256 of them. *)
Ltac by_cases_on_char c :=
  destruct c as [[] [] [] [] [] [] [] []]; vm_compute;
  try reflexivity; try discriminate; auto.

Lemma allowed_char_kept (c : ascii) :
  allowed_char c = true -> VolumeService.keep_class c = true.
Proof. by_cases_on_char c. Qed.

Lemma allowed_char_sep (c : ascii) :
  allowed_char c = true -> VolumeService.sep_class c = space_or_hyphen c.
Proof. by_cases_on_char c. Qed.

Lemma lower_char_not_upper (c : ascii) : is_upper (lower_char c) = false.
Proof. by_cases_on_char c. Qed.

Lemma lower_char_hyphen (c : ascii) :
  is_char 45 (lower_char c) = is_char 45 c.
Proof. by_cases_on_char c. Qed.

Lemma lower_char_fixed (c : ascii) :
  is_upper c = false -> lower_char c = c.
Proof. unfold lower_char. now intros ->. Qed.

Lemma filter_all (p : ascii -> bool) (s : str) :
  forallb p s = true -> filter p s = s.
Proof.
  induction s as [|c s IH]; cbn [forallb filter]; [reflexivity|].
  intros H. apply andb_true_iff in H as [Hc Hs]. rewrite Hc. f_equal. auto.
Qed.

Lemma dropwhile_incl (p : ascii -> bool) (s : str) (c : ascii) :
  In c (dropwhile p s) -> In c s.
Proof.
  induction s as [|a s IH]; cbn [dropwhile]; [auto|].
  destruct (p a); [intros H; right; auto | auto].
Qed.

Lemma strip_incl (s : str) (c : ascii) : In c (strip s) -> In c s.
Proof.
  unfold strip, rstrip, lstrip. intros H.
  apply in_rev in H. apply dropwhile_incl in H. apply in_rev in H.
  now apply dropwhile_incl in H.
Qed.

Lemma has_double_hyphen_cons (a : ascii) (t : str) :
  has_double_hyphen (a :: t)
  = (is_char 45 a && head_is_hyphen t) || has_double_hyphen t.
Proof. destruct t as [|b t]; [cbn; now rewrite andb_false_r | reflexivity]. Qed.

(** What [re.sub('[-\s]+', '-', s)] returns has no two hyphens in a row:
    a hyphen is written only at the start of a run, and the text after a
    run starts with a character outside the class. *)
Lemma re_sub_runs_no_double_hyphen (s : str) :
  forall in_run : bool,
    has_double_hyphen
      (re_sub_runs_from VolumeService.sep_class (lit "-") in_run s) = false
    /\ head_is_hyphen
         (re_sub_runs_from VolumeService.sep_class (lit "-") true s) = false.
Proof.
  induction s as [|c s IH]; intros in_run; [split; reflexivity|].
  cbn [re_sub_runs_from].
  destruct (VolumeService.sep_class c) eqn:Hc.
  - destruct (IH true) as [Hd Hh]. split; [|exact Hh].
    destruct in_run; cbn [app]; [exact Hd|].
    change (lit "-" ++ ?t) with ("-"%char :: t).
    rewrite has_double_hyphen_cons, Hh, Hd. reflexivity.
  - assert (H45 : is_char 45 c = false).
    { unfold VolumeService.sep_class in Hc.
      now apply orb_false_iff in Hc as [-> _]. }
    destruct (IH false) as [Hd _].
    split.
    + rewrite has_double_hyphen_cons, H45, Hd. reflexivity.
    + cbn [head_is_hyphen]. exact H45.
Qed.

Lemma has_double_hyphen_lower (s : str) :
  has_double_hyphen (lower s) = has_double_hyphen s.
Proof.
  induction s as [|a t IH]; [reflexivity|].
  unfold lower in *. cbn [map].
  rewrite !has_double_hyphen_cons, IH, lower_char_hyphen. f_equal. f_equal.
  destruct t as [|b t]; [reflexivity|]. cbn [map head_is_hyphen].
  apply lower_char_hyphen.
Qed.

Lemma no_double_hyphen_split (s : str) :
  has_double_hyphen s = false ->
  forall a b : str, s <> a ++ lit "--" ++ b.
Proof.
  intros H a. revert s H. induction a as [|x a IH]; intros s H b Heq.
  - subst s. discriminate H.
  - subst s. cbn [app] in H. rewrite has_double_hyphen_cons in H.
    apply orb_false_iff in H as [_ H]. exact (IH _ H b eq_refl).
Qed.

Lemma lower_idempotent (s : str) : lower (lower s) = lower s.
Proof.
  unfold lower. rewrite map_map. apply map_ext. intros c.
  apply lower_char_fixed, lower_char_not_upper.
Qed.

Lemma lower_no_ascii_upper (s : str) :
  forallb (fun c => negb (is_ascii_upper c)) (lower s) = true.
Proof.
  induction s as [|c s IH]; [reflexivity|].
  unfold lower in *. cbn [map forallb]. rewrite IH, andb_true_r.
  pose proof (lower_char_not_upper c) as H. unfold is_upper in H.
  apply orb_false_iff in H as [H _]. apply orb_false_iff in H as [H _].
  now rewrite H.
Qed.

(** C6, as stated, at the input " a" (a space, then a letter): the leading
    run of spaces is a maximal run of the input, and collapsing it to a
    hyphen gives "-a"; the sanitizer returns "a". *)
Lemma sanitize_leading_space_counterexample :
  forallb allowed_char (lit " a") = true
  /\ VolumeService._sanitize_folder_name (lit " a") = lit "a"
  /\ lower (collapse_runs (lit " a")) = lit "-a"
  /\ VolumeService._sanitize_folder_name (lit " a")
     <> lower (collapse_runs (lit " a")).
Proof.
  split; [reflexivity|]. split; [reflexivity|]. split; [reflexivity|].
  discriminate.
Qed.

(** C6, amended.  For every input made of characters in [[A-Za-z0-9 _-]]
    only, the sanitizer first trims the surrounding spaces, then every
    maximal run of spaces and hyphens of the trimmed text collapses to a
    single hyphen, and the result is lowercased; the output is lowercase
    ([lower] leaves it unchanged and it has no letter A-Z) and contains no
    two consecutive hyphens. *)
Theorem sanitize_folder_name_shape :
  forall name : str,
    forallb allowed_char name = true ->
    let out := VolumeService._sanitize_folder_name name in
    out = lower (collapse_runs (strip name))
    /\ lower out = out
    /\ forallb (fun c => negb (is_ascii_upper c)) out = true
    /\ has_double_hyphen out = false
    /\ (forall a b : str, out <> a ++ lit "--" ++ b).
Proof.
  intros name Hname out.
  assert (Hout : out = lower (re_sub_runs VolumeService.sep_class (lit "-")
                                 (strip name))).
  { subst out. unfold VolumeService._sanitize_folder_name,
      re_sub_delete_outside.
    rewrite filter_all; [reflexivity|].
    apply forallb_forall. intros c Hc. apply allowed_char_kept.
    rewrite forallb_forall in Hname. now apply Hname. }
  assert (Hdh : has_double_hyphen out = false).
  { rewrite Hout, has_double_hyphen_lower.
    apply (re_sub_runs_no_double_hyphen (strip name) false). }
  split; [|split; [|split; [|split]]].
  - rewrite Hout. f_equal. unfold re_sub_runs, collapse_runs.
    apply re_sub_runs_from_runs.
    intros c Hc. apply allowed_char_sep.
    rewrite forallb_forall in Hname. apply Hname. now apply strip_incl.
  - rewrite Hout. apply lower_idempotent.
  - rewrite Hout. apply lower_no_ascii_upper.
  - exact Hdh.
  - now apply no_double_hyphen_split.
Qed.

Lemma sanitize_folder_name_shape_witness :
  forallb allowed_char (lit "  Acme -- Corp_X ") = true
  /\ VolumeService._sanitize_folder_name (lit "  Acme -- Corp_X ")
     = lower (collapse_runs (strip (lit "  Acme -- Corp_X "))).
Proof.
  split; [reflexivity|].
  apply (sanitize_folder_name_shape (lit "  Acme -- Corp_X ")).
  reflexivity.
Defined.

(** ** C4 and C7: the file policy *)

Lemma extension_of_dotless (name : str) :
  ~ In "."%char name -> extension_of name = lower name.
Proof.
  intros H. unfold extension_of, last_item.
  now rewrite split_absent.
Qed.

Lemma truthy_nonempty (s : str) : s <> [] -> truthy s = true.
Proof. destruct s; [congruence | reflexivity]. Qed.

(** C4.  The code at the failing input: under the default configuration
    a 10-byte file named "csv" (no dot) is not rejected.  [split('.')[-1]]
    of a name without a dot is the whole name, so the extension the type
    check reads is "csv", not the empty string, and it is in the
    allow-list: [_validate_file] returns and [process_upload] goes on to
    the storage client.  The sibling [_generate_filename] cuts the same
    name with [rsplit('.', 1)] and finds no extension. *)
Theorem dotless_csv_passes_type_check :
  ~ In "."%char (lit "csv")
  /\ extension_of (lit "csv") = lit "csv"
  /\ _validate_file default_service dotless_csv = Ok tt
  /\ rsplit1 "." (lit "csv") = [lit "csv"]
  /\ fst (VolumeService._generate_filename quiet_env (lit "csv") (lit "csv")
            empty_world)
     = Ok (lit "csv_csv_20240115_103000")
  /\ calls (snd (process_upload quiet_env default_service dotless_csv
                   (sample_request (lit "Acme Corp") CSV) (lit "a@b.c")
                   empty_world))
     = [create_directory
          (lit "/Volumes/jmr_demo/intake/storage/acme-corp/2024-01-15");
        upload
          (lit "/Volumes/jmr_demo/intake/storage/acme-corp/2024-01-15/csv_csv_20240115_103000")
          (Blob (lit "0123456789")) true;
        upload
          (lit "/Volumes/jmr_demo/intake/storage/acme-corp/2024-01-15/metadata_csv_csv_20240115_103000.json")
          (MetadataJson
             {| upload_info :=
                  {| timestamp := instant_2024_01_15_103000;
                     uploader := lit "a@b.c";
                     original_filename := lit "csv";
                     stored_filename := lit "csv_csv_20240115_103000";
                     file_path :=
                       lit "/Volumes/jmr_demo/intake/storage/acme-corp/2024-01-15/csv_csv_20240115_103000";
                     file_size_bytes := 10;
                     file_format := lit "csv" |};
                technical_metadata :=
                  req_technical_metadata (sample_request (lit "Acme Corp") CSV);
                research_metadata :=
                  req_research_metadata (sample_request (lit "Acme Corp") CSV)
             |})
          true].
Proof.
  split; [vm_compute; intuition discriminate|].
  split; [reflexivity|]. split; [reflexivity|]. split; [reflexivity|].
  split; reflexivity.
Qed.

(** The type check on names without a dot.  Once the size check has
    passed, a non-empty filename containing no '.' whose lowercase form
    is not in the allow-list is rejected with the 400 error, which names
    that lowercase form as the file type; a missing or empty filename
    skips the type check and the file is accepted. *)
Lemma dotless_filename_rejected_unless_listed :
  forall (self : UploadService.t) (file : UploadFile),
    size_exceeds (size file) (max_file_size self) = false ->
    (forall name : str,
       filename file = Some name ->
       name <> [] ->
       ~ In "."%char name ->
       mem (lower name) (allowed_types self) = false ->
       _validate_file self file
       = Raise (HTTPException 400
                  (lit "File type '." ++ lower name
                   ++ lit "' is not allowed. Allowed types: "
                   ++ join (lit ", ") (allowed_types self))))
    /\ (truthy_opt (filename file) = false ->
        _validate_file self file = Ok tt).
Proof.
  intros self file Hsize. unfold _validate_file. rewrite Hsize. split.
  - intros name Hname Hne Hdot Hmem. rewrite Hname.
    rewrite (truthy_nonempty name Hne), (extension_of_dotless name Hdot), Hmem.
    reflexivity.
  - destruct (filename file) as [name|]; cbn [truthy_opt]; [|reflexivity].
    now intros ->.
Qed.

Lemma dotless_filename_rejected_unless_listed_witness :
  size_exceeds (size readme_file) (max_file_size default_service) = false
  /\ lit "README" <> []
  /\ ~ In "."%char (lit "README")
  /\ mem (lower (lit "README")) (allowed_types default_service) = false
  /\ _validate_file default_service readme_file
     = Raise (HTTPException 400
                (lit "File type '.readme' is not allowed. Allowed types: csv, json, pdf, xlsx, txt")).
Proof.
  assert (Hdot : ~ In "."%char (lit "README")).
  { vm_compute. intuition discriminate. }
  split; [reflexivity|]. split; [discriminate|]. split; [exact Hdot|].
  split; [reflexivity|].
  apply (proj1 (dotless_filename_rejected_unless_listed
                  default_service readme_file eq_refl) (lit "README")).
  - reflexivity.
  - discriminate.
  - exact Hdot.
  - reflexivity.
Defined.

(** C7.  For a service whose ceiling is [mb] megabytes (0 <= mb <= 2^53):
    a file reporting exactly [mb * 1024 * 1024] bytes passes the size check
    (no 413 error), and validation accepts it when its type is allowed; a
    file reporting any size above the ceiling is rejected with the 413
    size-exceeded error, whose message gives the limit in megabytes
    ("... of <mb>.0MB"). *)
Theorem size_ceiling_boundary :
  forall (self : UploadService.t) (mb : Z) (file : UploadFile),
    (0 <= mb <= 2 ^ 53)%Z ->
    max_file_size self = (mb * 1024 * 1024)%Z ->
    (size file = Some (max_file_size self) ->
       (forall d, _validate_file self file <> Raise (HTTPException 413 d))
       /\ (type_allowed self file = true -> _validate_file self file = Ok tt))
    /\ (forall n : Z,
          size file = Some n ->
          (max_file_size self + 1 <= n)%Z ->
          _validate_file self file
          = Raise (HTTPException 413
                     (lit "File size exceeds maximum allowed size of "
                      ++ str_of_Z mb ++ lit ".0MB"))).
Proof.
  intros self mb file Hmb Hmax. split.
  - intros Hsize.
    assert (Hnot : size_exceeds (size file) (max_file_size self) = false).
    { rewrite Hsize. cbn [size_exceeds].
      rewrite Z.ltb_irrefl. apply andb_false_r. }
    unfold _validate_file, type_allowed. rewrite Hnot. split.
    + intros d.
      destruct (filename file) as [name|]; [|discriminate].
      destruct (truthy name); [|discriminate].
      destruct (negb (mem (extension_of name) (allowed_types self)));
        discriminate.
    + destruct (filename file) as [name|]; [|reflexivity].
      destruct (truthy name); [|reflexivity].
      cbn [negb orb]. now intros ->.
  - intros n Hsize Hn.
    assert (Hex : size_exceeds (size file) (max_file_size self) = true).
    { rewrite Hsize. cbn [size_exceeds]. apply andb_true_iff. split.
      - apply negb_true_iff, Z.eqb_neq. lia.
      - apply Z.ltb_lt. lia. }
    unfold _validate_file. rewrite Hex.
    unfold size_error_detail, float_str_of_Z. rewrite Hmax.
    replace (mb * 1024 * 1024 / (1024 * 1024))%Z with mb
      by (rewrite <- Z.mul_assoc; symmetry; apply Z.div_mul; lia).
    now rewrite <- !app_assoc.
Qed.

Lemma size_ceiling_boundary_witness :
  (0 <= 100 <= 2 ^ 53)%Z
  /\ max_file_size default_service = (100 * 1024 * 1024)%Z
  /\ _validate_file default_service full_size_csv = Ok tt
  /\ _validate_file default_service oversized_csv
     = Raise (HTTPException 413
                (lit "File size exceeds maximum allowed size of 100.0MB")).
Proof.
  assert (Hmb : (0 <= 100 <= 2 ^ 53)%Z) by (vm_compute; split; discriminate).
  split; [exact Hmb|]. split; [reflexivity|]. split.
  - apply (proj1 (size_ceiling_boundary default_service 100%Z full_size_csv
                    Hmb eq_refl) eq_refl).
    reflexivity.
  - apply (proj2 (size_ceiling_boundary default_service 100%Z oversized_csv
                    Hmb eq_refl) 104857601%Z).
    + reflexivity.
    + vm_compute. discriminate.
Defined.

(** ** C9 and C10: what reaches the storage client *)

(** [_validate_file] raises nothing but [HTTPException]. *)
Lemma _validate_file_raises_http (self : UploadService.t) (file : UploadFile)
    (e : exn) :
  _validate_file self file = Raise e -> is_HTTPException e = true.
Proof.
  unfold _validate_file.
  destruct (size_exceeds _ _); [intros H; injection H as <-; reflexivity|].
  destruct (filename file) as [name|]; [|discriminate].
  destruct (truthy name); [|discriminate].
  destruct (negb _); [intros H; injection H as <-; reflexivity | discriminate].
Qed.

(** A rejected file stops [process_upload] before anything else runs. *)
Lemma process_upload_rejected (E : Env) (self : UploadService.t)
    (file : UploadFile) (req : FileUploadRequest) (email : str)
    (w : World) (e : exn) :
  _validate_file self file = Raise e ->
  process_upload E self file req email w = (Raise e, w).
Proof.
  intros H. pose proof (_validate_file_raises_http _ _ _ H) as Hhttp.
  unfold process_upload, try_except, bind, lift. rewrite H, Hhttp.
  reflexivity.
Qed.

(** C9.  From any world [w] (the calls made to the storage client so far,
    and the clock): when [parse_form_data] raises (metadata validation
    fails) the route ends with that error in the same world; when the file
    fails the size or the type check, [process_upload] ends with that error
    in the same world, and so does the route: not one call to the storage
    client is made. *)
Theorem early_errors_touch_no_storage :
  forall (E : Env) (self : UploadService.t) (user : option str)
         (form : Router.Form) (w : World),
    (forall e : exn,
       form_request form = Raise e ->
       Router.post_upload E self user form w = (Raise e, w))
    /\ (forall (req : FileUploadRequest) (email : str) (e : exn),
          _validate_file self (Router.form_file form) = Raise e ->
          process_upload E self (Router.form_file form) req email w
          = (Raise e, w))
    /\ (forall (req : FileUploadRequest) (e : exn),
          form_request form = Ok req ->
          _validate_file self (Router.form_file form) = Raise e ->
          snd (Router.post_upload E self user form w) = w
          /\ calls (snd (Router.post_upload E self user form w)) = calls w).
Proof.
  intros E self user form w. split; [|split].
  - intros e He. unfold Router.post_upload, bind, lift.
    fold (form_request form). now rewrite He.
  - intros req email e He. now apply process_upload_rejected.
  - intros req e Hreq He.
    assert (Hw : snd (Router.post_upload E self user form w) = w).
    { unfold Router.post_upload, bind, lift.
      fold (form_request form). rewrite Hreq.
      unfold Router.upload_file, try_except.
      now rewrite (process_upload_rejected E self _ req _ w e He). }
    split; [exact Hw | now rewrite Hw].
Qed.

Lemma early_errors_touch_no_storage_witness :
  form_request (sample_form (lit "Acme/Corp") small_exe)
    = Raise (ValidationError (lit "ResearchMetadata") [lit "project_name"])
  /\ Router.post_upload quiet_env default_service None
       (sample_form (lit "Acme/Corp") small_exe) empty_world
     = (Raise (ValidationError (lit "ResearchMetadata") [lit "project_name"]),
        empty_world)
  /\ form_request (sample_form (lit "Acme Corp") small_exe)
     = Ok (sample_request (lit "Acme Corp") CSV)
  /\ calls (snd (Router.post_upload quiet_env default_service None
                   (sample_form (lit "Acme Corp") small_exe) empty_world))
     = [].
Proof.
  split; [reflexivity|]. split.
  - apply (proj1 (early_errors_touch_no_storage quiet_env default_service
                    None (sample_form (lit "Acme/Corp") small_exe)
                    empty_world)).
    reflexivity.
  - split; [reflexivity|].
    apply (proj2 (proj2 (early_errors_touch_no_storage quiet_env
                           default_service None
                           (sample_form (lit "Acme Corp") small_exe)
                           empty_world))
             (sample_request (lit "Acme Corp") CSV)
             (HTTPException 400
                (lit "File type '.exe' is not allowed. Allowed types: csv, json, pdf, xlsx, txt"))).
    + reflexivity.
    + reflexivity.
Defined.

Lemma validate_file_without_size (self : UploadService.t) (file : UploadFile) :
  size file = None \/ size file = Some 0%Z ->
  type_allowed self file = true ->
  _validate_file self file = Ok tt.
Proof.
  intros Hsize Htype. unfold _validate_file, type_allowed in *.
  assert (Hnot : size_exceeds (size file) (max_file_size self) = false)
    by (destruct Hsize as [-> | ->]; reflexivity).
  rewrite Hnot.
  destruct (filename file) as [name|]; [|reflexivity].
  destruct (truthy name); [|reflexivity].
  cbn [negb orb] in Htype. now rewrite Htype.
Qed.

(** C10.  For a file whose reported size is 0 or missing and whose type is
    allowed, with a storage client that creates the folder and stores the
    blob: validation succeeds, [process_upload] calls the client twice
    (folder creation, then the blob written under the generated name in
    that folder), then the construction of [UploadInfo] fails on
    [file_size_bytes] and the request ends with the 500 error; the sidecar
    upload is never issued. *)
Theorem empty_file_stored_then_rejected :
  forall (E : Env) (self : UploadService.t) (user : option str)
         (file : UploadFile) (req : FileUploadRequest) (email : str)
         (w : World),
    size file = None \/ size file = Some 0%Z ->
    type_allowed self file = true ->
    accepts_blob_upload E ->
    let folder :=
      VolumeService.volume_path (volume_service self) ++ lit "/"
      ++ VolumeService._sanitize_folder_name
           (project_name (req_research_metadata req))
      ++ lit "/" ++ strftime_date (utcnow_at E (ticks w)) in
    exists stored : str,
      fst (VolumeService._generate_filename E
             (filename_or_unknown (filename file))
             (WorkflowType_value (workflow_type (req_technical_metadata req)))
             {| calls := calls w; ticks := S (ticks w) |}) = Ok stored
      /\ _validate_file self file = Ok tt
      /\ process_upload E self file req email w
         = (Raise (HTTPException 500
                     (lit "Upload failed: "
                      ++ validation_error_str E (lit "UploadInfo")
                           [lit "file_size_bytes"])),
            {| calls := calls w
                        ++ [create_directory folder;
                            upload (folder ++ lit "/" ++ stored)
                                   (Blob (content file)) true];
               ticks := S (S (S (ticks w))) |})
      /\ response_status (fst (Router.upload_file E self user file req w))
         = 500%Z
      /\ calls (snd (Router.upload_file E self user file req w))
         = calls w
           ++ [create_directory folder;
               upload (folder ++ lit "/" ++ stored)
                      (Blob (content file)) true].
Proof.
  intros E self user file req email w Hsize Htype [Hdir Hblob] folder.
  pose proof (validate_file_without_size self file Hsize Htype) as Hvalid.
  assert (Hzero : size_or_0 (size file) = 0%Z)
    by (destruct Hsize as [-> | ->]; reflexivity).
  eexists. split; [reflexivity|]. split; [exact Hvalid|].
  match goal with
  | |- (_ = ?R) /\ _ =>
      assert (Hrun : forall em, process_upload E self file req em w = R)
  end.
  { intros em. unfold process_upload, try_except, bind, lift. rewrite Hvalid.
    unfold VolumeService.upload_file, VolumeService.create_project_folder,
      VolumeService._get_project_folder_path, VolumeService._generate_filename,
      try_except, bind, utcnow, ret, client_call.
    cbn [calls ticks]. rewrite Hdir. cbn [calls ticks]. rewrite Hblob.
    unfold _create_upload_info, bind, utcnow, lift, UploadInfo_new.
    cbn [calls ticks]. rewrite Hzero. cbn [Z.ltb Z.compare is_HTTPException].
    unfold raise, str_exn. rewrite <- app_assoc. reflexivity. }
  split; [apply Hrun|].
  unfold Router.upload_file, try_except. rewrite Hrun. split; reflexivity.
Qed.

Lemma empty_file_stored_then_rejected_witness :
  (size empty_csv = None \/ size empty_csv = Some 0%Z)
  /\ type_allowed default_service empty_csv = true
  /\ accepts_blob_upload quiet_env
  /\ response_status
       (fst (Router.upload_file quiet_env default_service None empty_csv
               (sample_request (lit "Acme Corp") CSV) empty_world)) = 500%Z
  /\ calls (snd (Router.upload_file quiet_env default_service None empty_csv
                   (sample_request (lit "Acme Corp") CSV) empty_world))
     = [create_directory
          (lit "/Volumes/jmr_demo/intake/storage/acme-corp/2024-01-15");
        upload
          (lit "/Volumes/jmr_demo/intake/storage/acme-corp/2024-01-15/data_csv_20240115_103000.csv")
          (Blob []) true].
Proof.
  assert (Hsize : size empty_csv = None \/ size empty_csv = Some 0%Z)
    by (right; reflexivity).
  assert (Hclient : accepts_blob_upload quiet_env)
    by (split; reflexivity).
  split; [exact Hsize|]. split; [reflexivity|]. split; [exact Hclient|].
  destruct (empty_file_stored_then_rejected quiet_env default_service None
              empty_csv (sample_request (lit "Acme Corp") CSV) (lit "a@b.c")
              empty_world Hsize eq_refl Hclient)
    as (stored & Hname & _ & _ & Hstatus & Hcalls).
  split; [exact Hstatus|].
  vm_compute in Hname. injection Hname as <-. exact Hcalls.
Defined.

(* ================================================================= *)
(** * Further properties *)

(** ** The metadata validator *)

Lemma is_char_eq (n : N) (c : ascii) :
  is_char n c = true -> c = ascii_of_N n.
Proof.
  unfold is_char, code. intros H. apply N.eqb_eq in H.
  rewrite <- H. symmetry. apply ascii_N_embedding.
Qed.

(** When the newline is in the class, the optional newline that [$] lets
    through adds nothing: the tail of the match is over the class. *)
Lemma match_star_dollar_forallb (cls : ascii -> bool) (s : str) :
  cls (ascii_of_N 10) = true ->
  match_star_dollar cls s = forallb cls s.
Proof.
  intros Hnl. induction s as [|c s IH]; [reflexivity|].
  cbn [match_star_dollar forallb]. rewrite IH.
  destruct s as [|d s'].
  - cbn [at_dollar forallb]. rewrite andb_true_r.
    destruct (is_char 10 c) eqn:Hc; [|reflexivity].
    apply is_char_eq in Hc. subst c. now rewrite Hnl.
  - reflexivity.
Qed.

Lemma project_name_pattern (v : str) :
  re_match_plus_dollar project_name_class v
  = truthy v && forallb project_name_class v.
Proof.
  destruct v as [|c v]; [reflexivity|].
  cbn [re_match_plus_dollar truthy forallb andb].
  now rewrite match_star_dollar_forallb.
Qed.

(** X1.  [validate_project_name] returns exactly on the non-empty
    strings made of ASCII letters, digits, whitespace, hyphens and
    underscores (the newline that [$] tolerates at the end is whitespace,
    so it lets nothing else in), and what it returns is the trimmed name;
    on any other string it raises [ValueError]. *)
Theorem validate_project_name_accepts_class :
  forall v : str,
    validate_project_name v
    = if truthy v && forallb project_name_class v
      then Ok (strip v)
      else Raise (ValueError (lit
        "Project name can only contain letters, numbers, spaces, hyphens, and underscores")).
Proof.
  intros v. unfold validate_project_name. rewrite project_name_pattern.
  destruct (truthy v && forallb project_name_class v); reflexivity.
Qed.

Lemma check_length_within (name : string) (lo hi : nat) (v : str) :
  check_length name lo hi v = if within lo hi v then [] else [lit name].
Proof. reflexivity. Qed.

Lemma within_truthy (hi : nat) (v : str) : within 1 hi v = true -> truthy v = true.
Proof. destruct v; [discriminate | reflexivity]. Qed.

(** The errors [ResearchMetadata_new] gathers are the offending fields. *)
Lemma ResearchMetadata_new_fields
    (pn hy ds cm : str) (ex : option str) (dr : option DateRange)
    (rp : option ResearchPhase) (pl : option PrivacyLevel) :
  ResearchMetadata_new pn hy ds cm ex dr rp pl
  = match offending_fields pn hy ds cm ex with
    | [] => Ok {| project_name := strip pn;
                  hypothesis := hy;
                  data_source := ds;
                  collection_method := cm;
                  experiment_id := ex;
                  date_range := dr;
                  research_phase := rp;
                  privacy_level := pl |}
    | errors => Raise (ValidationError (lit "ResearchMetadata") errors)
    end.
Proof.
  unfold ResearchMetadata_new, offending_fields, project_name_ok.
  rewrite !check_length_within.
  unfold validate_project_name. rewrite project_name_pattern.
  assert (Hex : check_max_length_opt "experiment_id" 100 ex
                = if experiment_id_ok ex then [] else [lit "experiment_id"]).
  { destruct ex as [s|]; reflexivity. }
  rewrite Hex.
  destruct (within 1 200 pn) eqn:Hpn.
  - rewrite (within_truthy 200 pn Hpn). cbn [andb].
    destruct (forallb project_name_class pn); cbn [negb];
      destruct (within 1 1000 hy), (within 1 200 ds), (within 1 200 cm),
        (experiment_id_ok ex); reflexivity.
  - cbn [andb].
    destruct (within 1 1000 hy), (within 1 200 ds), (within 1 200 cm),
      (experiment_id_ok ex); reflexivity.
Qed.

(** The conditions under which [ResearchMetadata_new] returns. *)
Lemma ResearchMetadata_new_ok_iff :
  forall (pn hy ds cm : str) (ex : option str) (dr : option DateRange)
         (rp : option ResearchPhase) (pl : option PrivacyLevel)
         (rm : ResearchMetadata),
    ResearchMetadata_new pn hy ds cm ex dr rp pl = Ok rm
    <-> (project_name_ok pn = true
         /\ within 1 1000 hy = true
         /\ within 1 200 ds = true
         /\ within 1 200 cm = true
         /\ experiment_id_ok ex = true)
        /\ rm = {| project_name := strip pn;
                   hypothesis := hy;
                   data_source := ds;
                   collection_method := cm;
                   experiment_id := ex;
                   date_range := dr;
                   research_phase := rp;
                   privacy_level := pl |}.
Proof.
  intros. rewrite ResearchMetadata_new_fields. unfold offending_fields.
  destruct (project_name_ok pn), (within 1 1000 hy), (within 1 200 ds),
    (within 1 200 cm), (experiment_id_ok ex); cbn [app];
    (split;
     [ intros H; try discriminate H; injection H as <-; repeat split
     | intros [(H1 & H2 & H3 & H4 & H5) ->]; try discriminate; reflexivity ]).
Qed.

(** X2.  [ResearchMetadata(...)] is built exactly when the project name
    has 1 to 200 characters of the allowed class, the hypothesis 1 to 1000
    characters, data source and collection method 1 to 200 each and the
    experiment id, when given, at most 100; the model then holds the
    trimmed project name and every other field as it was given. *)
Theorem research_metadata_accepts_iff :
  forall (pn hy ds cm : str) (ex : option str) (dr : option DateRange)
         (rp : option ResearchPhase) (pl : option PrivacyLevel)
         (rm : ResearchMetadata),
    ResearchMetadata_new pn hy ds cm ex dr rp pl = Ok rm
    <-> (project_name_ok pn = true
         /\ within 1 1000 hy = true
         /\ within 1 200 ds = true
         /\ within 1 200 cm = true
         /\ experiment_id_ok ex = true)
        /\ rm = {| project_name := strip pn;
                   hypothesis := hy;
                   data_source := ds;
                   collection_method := cm;
                   experiment_id := ex;
                   date_range := dr;
                   research_phase := rp;
                   privacy_level := pl |}.
Proof. exact ResearchMetadata_new_ok_iff. Qed.

(** X3.  When [ResearchMetadata(...)] fails, the error is a validation
    error for that model which names exactly the offending fields, each
    once, in the order of their declaration; a field within its bounds is
    never named. *)
Theorem research_metadata_error_names_offending_fields :
  forall (pn hy ds cm : str) (ex : option str) (dr : option DateRange)
         (rp : option ResearchPhase) (pl : option PrivacyLevel) (e : exn),
    ResearchMetadata_new pn hy ds cm ex dr rp pl = Raise e ->
    e = ValidationError (lit "ResearchMetadata")
          (offending_fields pn hy ds cm ex)
    /\ offending_fields pn hy ds cm ex <> [].
Proof.
  intros pn hy ds cm ex dr rp pl e. rewrite ResearchMetadata_new_fields.
  destruct (offending_fields pn hy ds cm ex) as [|f fs];
    [discriminate|].
  intros H. injection H as <-. split; [reflexivity | discriminate].
Qed.

Lemma research_metadata_error_names_offending_fields_witness :
  ValidationError (lit "ResearchMetadata")
    [lit "project_name"; lit "hypothesis"]
  = ValidationError (lit "ResearchMetadata")
      (offending_fields (lit "Acme/Corp") [] (lit "lab") (lit "survey") None)
  /\ offending_fields (lit "Acme/Corp") [] (lit "lab") (lit "survey") None
     <> [].
Proof.
  apply (research_metadata_error_names_offending_fields
           (lit "Acme/Corp") [] (lit "lab") (lit "survey") None None None None).
  reflexivity.
Defined.

(** ** Trimming twice *)

Lemma dropwhile_twice (p : ascii -> bool) (s : str) :
  dropwhile p (dropwhile p s) = dropwhile p s.
Proof.
  destruct (dropwhile p s) as [|c t] eqn:Hd; [reflexivity|].
  apply dropwhile_head in Hd. cbn [dropwhile]. now rewrite Hd.
Qed.

(** [dropwhile] removes a prefix. *)
Lemma dropwhile_suffix (p : ascii -> bool) (s : str) :
  exists u, s = u ++ dropwhile p s /\ forallb p u = true.
Proof.
  induction s as [|c s (u & Hu & Hp)]; [now exists []|].
  cbn [dropwhile]. destruct (p c) eqn:Hc.
  - exists (c :: u). cbn [app forallb]. rewrite Hc, Hp.
    split; [now f_equal | reflexivity].
  - now exists [].
Qed.

(** [rstrip] keeps the first character of a string that does not start
    with whitespace. *)
Lemma rstrip_head (c : ascii) (t : str) :
  isspace c = false -> exists t', rstrip (c :: t) = c :: t'.
Proof.
  intros Hc. unfold rstrip.
  destruct (dropwhile_suffix isspace (rev (c :: t))) as (u & Hu & Hp).
  assert (Hr : c :: t = rev (dropwhile isspace (rev (c :: t))) ++ rev u).
  { rewrite <- rev_app_distr, <- Hu. now rewrite rev_involutive. }
  destruct (rev (dropwhile isspace (rev (c :: t)))) as [|d t'] eqn:Hd.
  - cbn [app] in Hr.
    assert (Hall : forallb isspace (c :: t) = true)
      by (rewrite Hr, forallb_rev; exact Hp).
    cbn [forallb] in Hall. rewrite Hc in Hall. discriminate.
  - cbn [app] in Hr. injection Hr as <- _. now exists t'.
Qed.

Lemma rstrip_twice (t : str) : rstrip (rstrip t) = rstrip t.
Proof. unfold rstrip. now rewrite rev_involutive, dropwhile_twice. Qed.

Lemma strip_idempotent (s : str) : strip (strip s) = strip s.
Proof.
  assert (Hl : lstrip (strip s) = strip s).
  { unfold strip, lstrip.
    destruct (dropwhile isspace s) as [|c t] eqn:Hd; [reflexivity|].
    pose proof (dropwhile_head _ _ _ _ Hd) as Hc.
    destruct (rstrip_head c t Hc) as (t' & Ht).
    rewrite Ht. cbn [dropwhile]. now rewrite Hc. }
  change (strip (strip s)) with (rstrip (lstrip (strip s))).
  rewrite Hl. unfold strip. apply rstrip_twice.
Qed.

Lemma forallb_strip (p : ascii -> bool) (s : str) :
  forallb p s = true -> forallb p (strip s) = true.
Proof.
  intros H. apply forallb_forall. intros c Hc.
  rewrite forallb_forall in H. apply H. now apply strip_incl.
Qed.

Lemma strip_length (s : str) : (List.length (strip s) <= List.length s)%nat.
Proof.
  unfold strip, rstrip, lstrip.
  destruct (dropwhile_suffix isspace s) as (u & Hu & _).
  destruct (dropwhile_suffix isspace (rev (dropwhile isspace s)))
    as (v & Hv & _).
  rewrite length_rev.
  apply (f_equal (@List.length ascii)) in Hu, Hv.
  rewrite length_app in Hu, Hv. rewrite length_rev in Hv. lia.
Qed.

Lemma class_excludes (c : ascii) :
  project_name_class c = true ->
  c <> "/"%char /\ c <> "."%char /\ c <> "\"%char.
Proof.
  intros H. repeat split; intros ->; discriminate H.
Qed.

(** X4.  Every [ResearchMetadata] that validates holds a project name
    that is already trimmed (trimming it again changes nothing), has at
    most 200 characters, all of them letters, digits, whitespace, hyphens
    or underscores: it contains no slash, no backslash and no dot. *)
Theorem validated_project_name_is_folder_safe :
  forall (pn hy ds cm : str) (ex : option str) (dr : option DateRange)
         (rp : option ResearchPhase) (pl : option PrivacyLevel)
         (rm : ResearchMetadata),
    ResearchMetadata_new pn hy ds cm ex dr rp pl = Ok rm ->
    strip (project_name rm) = project_name rm
    /\ (List.length (project_name rm) <= 200)%nat
    /\ forallb project_name_class (project_name rm) = true
    /\ ~ In "/"%char (project_name rm)
    /\ ~ In "\"%char (project_name rm)
    /\ ~ In "."%char (project_name rm).
Proof.
  intros pn hy ds cm ex dr rp pl rm H.
  apply ResearchMetadata_new_ok_iff in H as [(Hpn & _) ->].
  cbn [project_name]. unfold project_name_ok, within in Hpn.
  apply andb_true_iff in Hpn as [Hlen Hcls].
  apply andb_true_iff in Hlen as [_ Hlen]. apply Nat.leb_le in Hlen.
  assert (Hsafe : forallb project_name_class (strip pn) = true)
    by now apply forallb_strip.
  split; [apply strip_idempotent|].
  split; [pose proof (strip_length pn); lia|].
  split; [exact Hsafe|].
  rewrite forallb_forall in Hsafe.
  repeat split; intros Hin; apply Hsafe in Hin;
    apply class_excludes in Hin; intuition congruence.
Qed.

Lemma validated_project_name_is_folder_safe_witness :
  strip (project_name (sample_research_metadata (lit "Acme Corp")))
  = project_name (sample_research_metadata (lit "Acme Corp"))
  /\ ~ In "/"%char (project_name (sample_research_metadata (lit "Acme Corp"))).
Proof.
  destruct (validated_project_name_is_folder_safe
              (lit "  Acme Corp ") (lit "Does it scale?") (lit "lab")
              (lit "survey") None None None None
              (sample_research_metadata (lit "Acme Corp")) eq_refl)
    as (H1 & _ & _ & H2 & _).
  split; [exact H1 | exact H2].
Defined.

(** ** The folder-name sanitizer on arbitrary input *)

Lemma keep_not_sep_is_word (c : ascii) :
  VolumeService.keep_class c = true ->
  VolumeService.sep_class c = false -> is_word c = true.
Proof.
  unfold VolumeService.keep_class, VolumeService.sep_class.
  destruct (is_word c), (isspace c), (is_char 45 c); cbn; congruence.
Qed.

Lemma lower_char_folder_char (c : ascii) :
  is_word c || is_char 45 c = true -> folder_char (lower_char c) = true.
Proof. by_cases_on_char c. Qed.

Lemma folder_char_facts (c : ascii) :
  folder_char c = true ->
  VolumeService.keep_class c = true
  /\ isspace c = false
  /\ is_upper c = false
  /\ VolumeService.sep_class c = is_char 45 c
  /\ c <> "/"%char /\ c <> "."%char /\ c <> "\"%char.
Proof. by_cases_on_char c; repeat split; discriminate. Qed.

(** What [re.sub('[-\s]+', '-', s)] writes is a hyphen or a character of
    [s] outside the class. *)
Lemma re_sub_runs_chars (s : str) :
  forallb VolumeService.keep_class s = true ->
  forall in_run : bool,
    forallb (fun c => is_word c || is_char 45 c)
      (re_sub_runs_from VolumeService.sep_class (lit "-") in_run s) = true.
Proof.
  induction s as [|c s IH]; intros Hk in_run; [reflexivity|].
  cbn [forallb] in Hk. apply andb_true_iff in Hk as [Hc Hs].
  cbn [re_sub_runs_from].
  destruct (VolumeService.sep_class c) eqn:Hsep.
  - destruct in_run; cbn [app]; [now apply IH|].
    change (lit "-" ++ ?t) with ("-"%char :: t).
    cbn [forallb]. rewrite IH by assumption. reflexivity.
  - cbn [forallb]. rewrite (keep_not_sep_is_word c Hc Hsep), IH by assumption.
    reflexivity.
Qed.

Lemma sanitize_unfold (name : str) :
  VolumeService._sanitize_folder_name name
  = lower (re_sub_runs_from VolumeService.sep_class (lit "-") false
             (strip (filter VolumeService.keep_class name))).
Proof. reflexivity. Qed.

Lemma forallb_filter_self (p : ascii -> bool) (s : str) :
  forallb p (filter p s) = true.
Proof.
  apply forallb_forall. intros c Hc. now apply filter_In in Hc.
Qed.

Lemma forallb_lower_folder (s : str) :
  forallb (fun c => is_word c || is_char 45 c) s = true ->
  forallb folder_char (lower s) = true.
Proof.
  induction s as [|c s IH]; [reflexivity|].
  unfold lower in *. cbn [map forallb]. intros H.
  apply andb_true_iff in H as [Hc Hs].
  now rewrite (lower_char_folder_char c Hc), IH.
Qed.

(** The characters of a sanitized name, on the code points kept in [str]. *)
Lemma sanitize_output_chars :
  forall name : str,
    let out := VolumeService._sanitize_folder_name name in
    forallb folder_char out = true
    /\ has_double_hyphen out = false
    /\ lower out = out
    /\ forallb (fun c => negb (isspace c)) out = true
    /\ ~ In "/"%char out /\ ~ In "\"%char out /\ ~ In "."%char out.
Proof.
  intros name out.
  assert (Hf : forallb folder_char out = true).
  { subst out. rewrite sanitize_unfold. apply forallb_lower_folder.
    apply re_sub_runs_chars. apply forallb_strip, forallb_filter_self. }
  split; [exact Hf|].
  split.
  { subst out. rewrite sanitize_unfold, has_double_hyphen_lower.
    apply (re_sub_runs_no_double_hyphen _ false). }
  split; [subst out; rewrite sanitize_unfold; apply lower_idempotent|].
  rewrite forallb_forall in Hf.
  split.
  { apply forallb_forall. intros c Hc.
    destruct (folder_char_facts c (Hf c Hc)) as (_ & -> & _). reflexivity. }
  repeat split; intros Hin;
    destruct (folder_char_facts _ (Hf _ Hin)) as (_ & _ & _ & _ & H1 & H2 & H3);
    congruence.
Qed.

(** What [re.sub('[-\s]+', '-', s)] writes is a hyphen or a character of
    [s] outside the class, with whatever held of the characters of [s]. *)
Lemma re_sub_runs_keeps (P : ascii -> bool) (s : str) :
  forallb P s = true ->
  forall in_run : bool,
    forallb (fun c => is_char 45 c
                      || (P c && negb (VolumeService.sep_class c)))
      (re_sub_runs_from VolumeService.sep_class (lit "-") in_run s) = true.
Proof.
  induction s as [|c s IH]; intros HP in_run; [reflexivity|].
  cbn [forallb] in HP. apply andb_true_iff in HP as [Hc Hs].
  cbn [re_sub_runs_from].
  destruct (VolumeService.sep_class c) eqn:Hsep.
  - destruct in_run; cbn [app]; [now apply IH|].
    change (lit "-" ++ ?t) with ("-"%char :: t).
    cbn [forallb]. rewrite IH by assumption. reflexivity.
  - cbn [forallb]. rewrite Hc, Hsep, IH by assumption.
    cbn [negb andb]. now rewrite orb_true_r.
Qed.

Lemma lower_char_segment_char (c : ascii) :
  is_char 45 c
  || (project_name_class c && negb (VolumeService.sep_class c)) = true ->
  segment_char (lower_char c) = true.
Proof. by_cases_on_char c. Qed.

Lemma sanitize_segment_chars (name : str) :
  forallb project_name_class name = true ->
  forallb segment_char (VolumeService._sanitize_folder_name name) = true.
Proof.
  intros Hname. rewrite sanitize_unfold.
  assert (Hs : forallb project_name_class
                 (strip (filter VolumeService.keep_class name)) = true).
  { apply forallb_strip. apply forallb_forall. intros c Hc.
    apply filter_In in Hc as [Hc _].
    rewrite forallb_forall in Hname. now apply Hname. }
  pose proof (re_sub_runs_keeps project_name_class _ Hs false) as Hr.
  revert Hr.
  generalize (re_sub_runs_from VolumeService.sep_class (lit "-") false
                (strip (filter VolumeService.keep_class name))).
  intros t Ht. induction t as [|c t IH]; [reflexivity|].
  unfold lower in *. cbn [map forallb] in *.
  apply andb_true_iff in Ht as [Hc Ht].
  now rewrite (lower_char_segment_char c Hc), IH.
Qed.

(** X5.  For every name made of the characters the project-name pattern
    lets through (ASCII letters and digits, whitespace, hyphens,
    underscores), the folder segment the sanitizer returns is made of
    [[a-z0-9_-]] only: no slash, no backslash, no dot, no whitespace and no
    uppercase letter; it has no two hyphens in a row and [lower] leaves it
    unchanged. *)
Theorem sanitized_segment_alphabet :
  forall name : str,
    forallb project_name_class name = true ->
    let out := VolumeService._sanitize_folder_name name in
    forallb segment_char out = true
    /\ has_double_hyphen out = false
    /\ lower out = out
    /\ forallb (fun c => negb (isspace c)) out = true
    /\ ~ In "/"%char out /\ ~ In "\"%char out /\ ~ In "."%char out.
Proof.
  intros name Hname out.
  split; [now apply sanitize_segment_chars|].
  exact (proj2 (sanitize_output_chars name)).
Qed.

Lemma sanitized_segment_alphabet_witness :
  forallb project_name_class
    (lit "  Acme --" ++ [ascii_of_N 9] ++ lit "Corp_X ") = true
  /\ VolumeService._sanitize_folder_name
       (lit "  Acme --" ++ [ascii_of_N 9] ++ lit "Corp_X ")
     = lit "acme-corp_x"
  /\ forallb segment_char
       (VolumeService._sanitize_folder_name
          (lit "  Acme --" ++ [ascii_of_N 9] ++ lit "Corp_X ")) = true.
Proof.
  split; [reflexivity|]. split; [reflexivity|].
  exact (proj1 (sanitized_segment_alphabet
                  (lit "  Acme --" ++ [ascii_of_N 9] ++ lit "Corp_X ") eq_refl)).
Defined.

Lemma dropwhile_none (p : ascii -> bool) (s : str) :
  forallb (fun c => negb (p c)) s = true -> dropwhile p s = s.
Proof.
  destruct s as [|c s]; [reflexivity|]. cbn [forallb dropwhile].
  intros H. apply andb_true_iff in H as [Hc _].
  apply negb_true_iff in Hc. now rewrite Hc.
Qed.

Lemma strip_no_space (s : str) :
  forallb (fun c => negb (isspace c)) s = true -> strip s = s.
Proof.
  intros H. unfold strip, lstrip, rstrip.
  rewrite (dropwhile_none isspace s H).
  rewrite dropwhile_none by now rewrite forallb_rev.
  apply rev_involutive.
Qed.

(** On a string of folder characters without double hyphen, the
    replacement of runs writes back what it reads. *)
Lemma re_sub_runs_fixed (s : str) :
  forallb folder_char s = true ->
  has_double_hyphen s = false ->
  forall in_run : bool,
    (in_run = true -> head_is_hyphen s = false) ->
    re_sub_runs_from VolumeService.sep_class (lit "-") in_run s = s.
Proof.
  induction s as [|c s IH]; intros Hf Hd in_run Hrun; [reflexivity|].
  cbn [forallb] in Hf. apply andb_true_iff in Hf as [Hc Hs].
  rewrite has_double_hyphen_cons in Hd.
  apply orb_false_iff in Hd as [Hcd Hd].
  destruct (folder_char_facts c Hc) as (_ & _ & _ & Hsep & _).
  cbn [re_sub_runs_from]. rewrite Hsep.
  destruct (is_char 45 c) eqn:H45.
  - destruct in_run; [specialize (Hrun eq_refl); cbn in Hrun; congruence|].
    cbn [andb] in Hcd. rewrite (IH Hs Hd true (fun _ => Hcd)).
    apply is_char_eq in H45. subst c. reflexivity.
  - now rewrite (IH Hs Hd false) by discriminate.
Qed.

Lemma lower_fixed (s : str) :
  forallb (fun c => negb (is_upper c)) s = true -> lower s = s.
Proof.
  induction s as [|c s IH]; [reflexivity|].
  unfold lower in *. cbn [forallb map]. intros H.
  apply andb_true_iff in H as [Hc Hs]. apply negb_true_iff in Hc.
  now rewrite (lower_char_fixed c Hc), IH.
Qed.

Lemma forallb_impl (p q : ascii -> bool) (s : str) :
  (forall c, p c = true -> q c = true) ->
  forallb p s = true -> forallb q s = true.
Proof.
  intros Hpq H. apply forallb_forall. intros c Hc.
  rewrite forallb_forall in H. auto.
Qed.

(** Sanitizing a sanitized name, on the code points kept in [str]. *)
Lemma sanitize_twice :
  forall name : str,
    VolumeService._sanitize_folder_name
      (VolumeService._sanitize_folder_name name)
    = VolumeService._sanitize_folder_name name.
Proof.
  intros name.
  destruct (sanitize_output_chars name) as (Hf & Hd & _ & Hsp & _).
  set (out := VolumeService._sanitize_folder_name name) in *.
  rewrite sanitize_unfold.
  rewrite filter_all
    by (eapply forallb_impl; [|exact Hf]; intros c Hc;
        now destruct (folder_char_facts c Hc)).
  rewrite (strip_no_space out Hsp).
  rewrite (re_sub_runs_fixed out Hf Hd false) by discriminate.
  apply lower_fixed.
  eapply forallb_impl; [|exact Hf]. intros c Hc.
  destruct (folder_char_facts c Hc) as (_ & _ & -> & _). reflexivity.
Qed.

(** X6.  On the names the project-name pattern lets through (ASCII
    letters and digits, whitespace, hyphens, underscores) sanitizing is
    idempotent: the folder segment obtained from such a name is returned
    unchanged when it is sanitized again. *)
Theorem sanitize_folder_name_idempotent :
  forall name : str,
    forallb project_name_class name = true ->
    VolumeService._sanitize_folder_name
      (VolumeService._sanitize_folder_name name)
    = VolumeService._sanitize_folder_name name.
Proof. intros name _. exact (sanitize_twice name). Qed.

Lemma sanitize_folder_name_idempotent_witness :
  forallb project_name_class (lit " My  Project-- 7 ") = true
  /\ VolumeService._sanitize_folder_name (lit " My  Project-- 7 ")
     = lit "my-project-7"
  /\ VolumeService._sanitize_folder_name (lit "my-project-7")
     = lit "my-project-7".
Proof.
  split; [reflexivity|]. split; [reflexivity|].
  exact (sanitize_folder_name_idempotent (lit " My  Project-- 7 ") eq_refl).
Defined.

(** ** Letter case *)

Lemma lower_char_classes (c : ascii) :
  VolumeService.keep_class (lower_char c) = VolumeService.keep_class c
  /\ isspace (lower_char c) = isspace c
  /\ VolumeService.sep_class (lower_char c) = VolumeService.sep_class c.
Proof. by_cases_on_char c. Qed.

Lemma filter_map_commute (p : ascii -> bool) (f : ascii -> ascii) (s : str) :
  (forall c, p (f c) = p c) -> filter p (map f s) = map f (filter p s).
Proof.
  intros H. induction s as [|c s IH]; [reflexivity|].
  cbn [map filter]. rewrite H. destruct (p c); cbn [map]; now rewrite IH.
Qed.

Lemma dropwhile_map_commute (p : ascii -> bool) (f : ascii -> ascii) (s : str) :
  (forall c, p (f c) = p c) -> dropwhile p (map f s) = map f (dropwhile p s).
Proof.
  intros H. induction s as [|c s IH]; [reflexivity|].
  cbn [map dropwhile]. rewrite H. destruct (p c); [exact IH | reflexivity].
Qed.

Lemma strip_lower (s : str) : strip (lower s) = lower (strip s).
Proof.
  assert (H : forall c, isspace (lower_char c) = isspace c)
    by (intros c; apply lower_char_classes).
  unfold strip, rstrip, lstrip, lower.
  rewrite (dropwhile_map_commute isspace lower_char s H).
  rewrite <- map_rev, (dropwhile_map_commute isspace lower_char _ H).
  now rewrite map_rev.
Qed.

Lemma re_sub_runs_lower (s : str) (in_run : bool) :
  re_sub_runs_from VolumeService.sep_class (lit "-") in_run (lower s)
  = lower (re_sub_runs_from VolumeService.sep_class (lit "-") in_run s).
Proof.
  revert in_run. induction s as [|c s IH]; intros in_run; [reflexivity|].
  unfold lower in *. cbn [map re_sub_runs_from].
  destruct (lower_char_classes c) as (_ & _ & ->).
  destruct (VolumeService.sep_class c).
  - rewrite IH. destruct in_run; reflexivity.
  - cbn [map]. now rewrite IH.
Qed.

(** Sanitizing the lowercase form of a name, on the code points kept in
    [str]. *)
Lemma sanitize_lower :
  forall name : str,
    VolumeService._sanitize_folder_name (lower name)
    = VolumeService._sanitize_folder_name name.
Proof.
  intros name. rewrite !sanitize_unfold.
  unfold lower at 2.
  rewrite (filter_map_commute VolumeService.keep_class lower_char name)
    by (intros c; apply lower_char_classes).
  fold (lower (filter VolumeService.keep_class name)).
  rewrite strip_lower, re_sub_runs_lower.
  apply lower_idempotent.
Qed.

(** X7.  On the names the project-name pattern lets through (ASCII
    letters and digits, whitespace, hyphens, underscores) the sanitizer
    ignores letter case: a name and its lowercase form give the same
    folder segment, so projects whose names differ only in case share one
    folder. *)
Theorem sanitize_folder_name_ignores_case :
  forall name : str,
    forallb project_name_class name = true ->
    VolumeService._sanitize_folder_name (lower name)
    = VolumeService._sanitize_folder_name name.
Proof. intros name _. exact (sanitize_lower name). Qed.

Lemma sanitize_folder_name_ignores_case_witness :
  forallb project_name_class (lit "Acme Corp") = true
  /\ VolumeService._sanitize_folder_name (lit "acme corp")
     = VolumeService._sanitize_folder_name (lit "Acme Corp").
Proof.
  split; [reflexivity|].
  exact (sanitize_folder_name_ignores_case (lit "Acme Corp") eq_refl).
Defined.

(** ** File names and extensions *)

Lemma split_app_last (sep : ascii) (a b : str) :
  ~ In sep b ->
  exists pre, pre <> [] /\ split sep (a ++ sep :: b) = pre ++ [b].
Proof.
  intros Hb. induction a as [|c a (pre & Hne & IH)]; cbn [app split].
  - destruct (ascii_dec sep sep) as [_|N]; [|now destruct N].
    exists [[]]. split; [discriminate|]. now rewrite split_absent.
  - destruct (ascii_dec c sep) as [->|_].
    + exists ([] :: pre). split; [discriminate|]. now rewrite IH.
    + rewrite IH. destruct pre as [|p ps]; [congruence|].
      exists ((c :: p) :: ps). split; [discriminate | reflexivity].
Qed.

Lemma extension_of_dotted (base ext : str) :
  ~ In "."%char ext -> extension_of (dotted base ext) = lower ext.
Proof.
  intros H. unfold extension_of, last_item, dotted.
  destruct (split_app_last "." base ext H) as (pre & _ & ->).
  now rewrite last_last.
Qed.

(** X8.  The type check reads the text after the last dot and ignores its
    letter case: once the size check has passed, a file named [base.ext]
    is accepted exactly when the lowercase form of [ext] is one of the
    allowed types, and is otherwise rejected with the 400 error that
    names that lowercase extension. *)
Theorem type_check_reads_last_extension :
  forall (self : UploadService.t) (file : UploadFile) (base ext : str),
    filename file = Some (dotted base ext) ->
    ~ In "."%char ext ->
    size_exceeds (size file) (max_file_size self) = false ->
    _validate_file self file
    = if mem (lower ext) (allowed_types self)
      then Ok tt
      else Raise (HTTPException 400
                    (lit "File type '." ++ lower ext
                     ++ lit "' is not allowed. Allowed types: "
                     ++ join (lit ", ") (allowed_types self))).
Proof.
  intros self file base ext Hname Hext Hsize.
  unfold _validate_file. rewrite Hsize, Hname.
  assert (Ht : truthy (dotted base ext) = true)
    by (unfold dotted; destruct base; reflexivity).
  rewrite Ht, (extension_of_dotted base ext Hext).
  destruct (mem (lower ext) (allowed_types self)); reflexivity.
Qed.

Lemma type_check_reads_last_extension_witness :
  ~ In "."%char (lit "CSV")
  /\ _validate_file default_service
       {| filename := Some (lit "Report.Final.CSV");
          size := Some 10%Z;
          content := lit "0123456789" |} = Ok tt.
Proof.
  assert (Hdot : ~ In "."%char (lit "CSV")).
  { vm_compute. intuition discriminate. }
  split; [exact Hdot|].
  apply (type_check_reads_last_extension default_service
           {| filename := Some (lit "Report.Final.CSV");
              size := Some 10%Z;
              content := lit "0123456789" |}
           (lit "Report.Final") (lit "CSV") eq_refl Hdot eq_refl).
Defined.

(** X9.  For a file named [base.ext] that reports a positive size,
    [_create_upload_info] reads the clock once and builds the record with
    the reported size, the original filename, and as file format the
    lowercase form of the text after the last dot. *)
Theorem upload_info_of_dotted_file :
  forall (E : Env) (file : UploadFile) (base ext : str) (n : Z)
         (stored path email : str) (w : World),
    filename file = Some (dotted base ext) ->
    ~ In "."%char ext ->
    size file = Some n ->
    (0 < n)%Z ->
    _create_upload_info E file stored path email w
    = (Ok {| timestamp := utcnow_at E (ticks w);
             uploader := email;
             original_filename := dotted base ext;
             stored_filename := stored;
             file_path := path;
             file_size_bytes := n;
             file_format := lower ext |},
       {| calls := calls w; ticks := S (ticks w) |}).
Proof.
  intros E file base ext n stored path email w Hname Hext Hsize Hn.
  assert (Ht : truthy (dotted base ext) = true)
    by (unfold dotted; destruct base; reflexivity).
  unfold _create_upload_info, bind, utcnow, lift, UploadInfo_new,
    filename_or_unknown.
  rewrite Hname, Hsize, Ht, (extension_of_dotted base ext Hext).
  cbn [size_or_0]. apply Z.ltb_lt in Hn. now rewrite Hn.
Qed.

Lemma upload_info_of_dotted_file_witness :
  fst (_create_upload_info quiet_env
         {| filename := Some (lit "notes.v2.TXT");
            size := Some 10%Z;
            content := lit "0123456789" |}
         (lit "s") (lit "p") (lit "a@b.c") empty_world)
  = Ok {| timestamp := instant_2024_01_15_103000;
          uploader := lit "a@b.c";
          original_filename := lit "notes.v2.TXT";
          stored_filename := lit "s";
          file_path := lit "p";
          file_size_bytes := 10;
          file_format := lit "txt" |}.
Proof.
  assert (Hdot : ~ In "."%char (lit "TXT")).
  { vm_compute. intuition discriminate. }
  rewrite (upload_info_of_dotted_file quiet_env
             {| filename := Some (lit "notes.v2.TXT");
                size := Some 10%Z;
                content := lit "0123456789" |}
             (lit "notes.v2") (lit "TXT") 10%Z (lit "s") (lit "p")
             (lit "a@b.c") empty_world eq_refl Hdot eq_refl eq_refl).
  reflexivity.
Defined.

(** ** Stored names *)

Lemma generate_filename_run (E : Env) (orig wt : str) (w : World) :
  snd (VolumeService._generate_filename E orig wt w)
  = {| calls := calls w; ticks := S (ticks w) |}.
Proof. reflexivity. Qed.

(** [_generate_filename] by the shape of the original name. *)
Lemma generate_filename_cases :
  forall (E : Env) (wt : str) (w : World),
    let stamp := strftime_compact (utcnow_at E (ticks w)) in
    (forall base ext : str,
       ~ In "."%char ext ->
       ext <> [] ->
       fst (VolumeService._generate_filename E (dotted base ext) wt w)
       = Ok (base ++ lit "_" ++ wt ++ lit "_" ++ stamp ++ lit "." ++ ext))
    /\ (forall base : str,
          fst (VolumeService._generate_filename E (dotted base []) wt w)
          = Ok (base ++ lit "_" ++ wt ++ lit "_" ++ stamp))
    /\ (forall orig : str,
          ~ In "."%char orig ->
          fst (VolumeService._generate_filename E orig wt w)
          = Ok (orig ++ lit "_" ++ wt ++ lit "_" ++ stamp)).
Proof.
  intros E wt w stamp. split; [|split].
  - intros base ext Hext Hne.
    unfold VolumeService._generate_filename, bind, utcnow, ret, dotted.
    cbn [fst]. rewrite (rsplit1_app "." base ext Hext).
    cbn [nth List.length Nat.ltb Nat.leb]. rewrite (truthy_nonempty ext Hne).
    fold stamp. now rewrite <- !app_assoc.
  - intros base.
    unfold VolumeService._generate_filename, bind, utcnow, ret, dotted.
    cbn [fst]. rewrite (rsplit1_app "." base []) by (intros []).
    reflexivity.
  - intros orig Horig.
    unfold VolumeService._generate_filename, bind, utcnow, ret.
    cbn [fst]. unfold rsplit1.
    rewrite break_at_absent by (now rewrite <- in_rev).
    reflexivity.
Qed.

(** X10.  The stored name is the original name with
    [_<workflow>_<YYYYMMDD_HHMMSS>] put before its last extension: for
    [base.ext] with a non-empty [ext] it is [base_wt_stamp.ext], the
    extension keeping its letter case; a name that ends with a dot loses
    that dot; a name without a dot gets the suffix appended. *)
Theorem stored_name_shape :
  forall (E : Env) (wt : str) (w : World),
    let stamp := strftime_compact (utcnow_at E (ticks w)) in
    (forall base ext : str,
       ~ In "."%char ext ->
       ext <> [] ->
       fst (VolumeService._generate_filename E (dotted base ext) wt w)
       = Ok (base ++ lit "_" ++ wt ++ lit "_" ++ stamp ++ lit "." ++ ext))
    /\ (forall base : str,
          fst (VolumeService._generate_filename E (dotted base []) wt w)
          = Ok (base ++ lit "_" ++ wt ++ lit "_" ++ stamp))
    /\ (forall orig : str,
          ~ In "."%char orig ->
          fst (VolumeService._generate_filename E orig wt w)
          = Ok (orig ++ lit "_" ++ wt ++ lit "_" ++ stamp)).
Proof. exact generate_filename_cases. Qed.

Lemma stored_name_shape_witness :
  fst (VolumeService._generate_filename quiet_env
         (lit "archive.tar.GZ") (lit "csv") empty_world)
  = Ok (lit "archive.tar_csv_20240115_103000.GZ").
Proof.
  assert (Hdot : ~ In "."%char (lit "GZ")).
  { vm_compute. intuition discriminate. }
  assert (Hne : lit "GZ" <> []) by discriminate.
  exact (proj1 (stored_name_shape quiet_env (lit "csv") empty_world)
           (lit "archive.tar") (lit "GZ") Hdot Hne).
Defined.

(** ** Timestamps *)

Lemma string_of_uint_digits (d : Decimal.uint) :
  forallb is_ascii_digit
    (list_ascii_of_string (NilEmpty.string_of_uint d)) = true.
Proof. induction d; cbn; auto. Qed.

Lemma str_of_N_digits (n : N) : forallb is_ascii_digit (str_of_N n) = true.
Proof.
  unfold str_of_N, NilZero.string_of_uint.
  destruct (N.to_uint n); try reflexivity;
    apply (string_of_uint_digits (_ _)).
Qed.

Lemma fmt_digits (width : nat) (n : N) :
  forallb is_ascii_digit (fmt width n) = true.
Proof.
  unfold fmt, zfill. rewrite forallb_app, str_of_N_digits, andb_true_r.
  induction (width - List.length (str_of_N n))%nat; [reflexivity | assumption].
Qed.

Lemma strftime_compact_chars (t : datetime) :
  forallb stamp_char (strftime_compact t) = true.
Proof.
  assert (H : forall w n, forallb stamp_char (fmt w n) = true).
  { intros w n. eapply forallb_impl; [|apply fmt_digits].
    intros c Hc. unfold stamp_char. now rewrite Hc. }
  unfold strftime_compact. now rewrite !forallb_app, !H.
Qed.

Lemma stamp_char_excludes (c : ascii) :
  stamp_char c = true -> c <> "/"%char /\ c <> "."%char.
Proof. intros H. split; intros ->; discriminate H. Qed.

Lemma strftime_compact_no (t : datetime) :
  ~ In "/"%char (strftime_compact t) /\ ~ In "."%char (strftime_compact t).
Proof.
  pose proof (strftime_compact_chars t) as H. rewrite forallb_forall in H.
  split; intros Hin; apply H, stamp_char_excludes in Hin; intuition congruence.
Qed.

Lemma WorkflowType_value_no (t : WorkflowType) :
  ~ In "/"%char (WorkflowType_value t) /\ ~ In "."%char (WorkflowType_value t).
Proof. destruct t; vm_compute; intuition discriminate. Qed.

(** ** The sidecar path *)

(** A string that contains [sep] splits at its last occurrence. *)
Lemma last_occurrence (sep : ascii) (s : str) :
  In sep s -> exists a b, s = a ++ sep :: b /\ ~ In sep b.
Proof.
  induction s as [|c s IH]; [intros []|].
  destruct (in_dec ascii_dec sep s) as [Hin|Hnot].
  - intros _. destruct (IH Hin) as (a & b & -> & Hb).
    now exists (c :: a), b.
  - intros [->|Hin]; [|contradiction]. now exists [], s.
Qed.

(** [metadata_path_of] with and without a slash in the path. *)
Lemma metadata_path_of_slash :
  forall file_path : str,
    (~ In "/"%char file_path ->
     VolumeService.metadata_path_of file_path = Raise IndexError
     /\ forall E metadata w,
          VolumeService.save_metadata E metadata file_path w
          = (Raise IndexError, w))
    /\ (In "/"%char file_path ->
        exists sidecar, VolumeService.metadata_path_of file_path = Ok sidecar).
Proof.
  intros file_path. split.
  - intros H.
    assert (Hp : VolumeService.metadata_path_of file_path = Raise IndexError).
    { unfold VolumeService.metadata_path_of, rsplit1.
      rewrite break_at_absent by (now rewrite <- in_rev). reflexivity. }
    split; [exact Hp|]. intros E metadata w.
    unfold VolumeService.save_metadata, bind, lift. now rewrite Hp.
  - intros H. destruct (last_occurrence "/" file_path H) as (a & b & -> & Hb).
    unfold VolumeService.metadata_path_of. rewrite (rsplit1_app "/" a b Hb).
    cbn [nth_error]. unfold rsplit1.
    destruct (break_at "." (rev b)) as [x [y|]]; eexists; reflexivity.
Qed.

(** X11.  [save_metadata] needs a slash in the file path: on a path
    without one it raises [IndexError] before any call to the client, and
    on every path with one the sidecar path is defined. *)
Theorem sidecar_path_needs_slash :
  forall file_path : str,
    (~ In "/"%char file_path ->
     VolumeService.metadata_path_of file_path = Raise IndexError
     /\ forall E metadata w,
          VolumeService.save_metadata E metadata file_path w
          = (Raise IndexError, w))
    /\ (In "/"%char file_path ->
        exists sidecar, VolumeService.metadata_path_of file_path = Ok sidecar).
Proof. exact metadata_path_of_slash. Qed.

Lemma sidecar_path_needs_slash_witness :
  ~ In "/"%char (lit "data_csv_20240115_103000.csv")
  /\ VolumeService.metadata_path_of (lit "data_csv_20240115_103000.csv")
     = Raise IndexError.
Proof.
  assert (H : ~ In "/"%char (lit "data_csv_20240115_103000.csv")).
  { vm_compute. intuition discriminate. }
  split; [exact H|].
  exact (proj1 (proj1 (sidecar_path_needs_slash
                         (lit "data_csv_20240115_103000.csv")) H)).
Defined.

(** [metadata_path_of] on a file directly in a folder. *)
Lemma metadata_path_of_in_folder :
  forall dir fname : str,
    ~ In "/"%char fname ->
    (forall base ext : str,
       fname = dotted base ext ->
       ~ In "."%char ext ->
       VolumeService.metadata_path_of (dir ++ lit "/" ++ fname)
       = Ok (dir ++ lit "/" ++ lit "metadata_" ++ base ++ lit ".json")
       /\ ~ In "/"%char (lit "metadata_" ++ base ++ lit ".json"))
    /\ (~ In "."%char fname ->
        VolumeService.metadata_path_of (dir ++ lit "/" ++ fname)
        = Ok (dir ++ lit "/" ++ lit "metadata_" ++ fname ++ lit ".json")
        /\ ~ In "/"%char (lit "metadata_" ++ fname ++ lit ".json")).
Proof.
  intros dir fname Hslash.
  assert (Hparts : rsplit1 "/" (dir ++ lit "/" ++ fname) = [dir; fname])
    by (apply (rsplit1_app "/" dir fname Hslash)).
  assert (Hname : forall stem, ~ In "/"%char stem ->
            ~ In "/"%char (lit "metadata_" ++ stem ++ lit ".json")).
  { intros stem Hs Hin. apply in_app_or in Hin as [Hin|Hin].
    - vm_compute in Hin. intuition discriminate.
    - apply in_app_or in Hin as [Hin|Hin]; [contradiction|].
      vm_compute in Hin. intuition discriminate. }
  split.
  - intros base ext -> Hext.
    unfold VolumeService.metadata_path_of. rewrite Hparts. cbn [nth_error].
    unfold dotted. rewrite (rsplit1_app "." base ext Hext). cbn [nth_error].
    split; [reflexivity|]. apply Hname.
    intros Hin. apply Hslash. unfold dotted. apply in_or_app. now left.
  - intros Hdot.
    unfold VolumeService.metadata_path_of. rewrite Hparts. cbn [nth_error].
    unfold rsplit1. rewrite break_at_absent by (now rewrite <- in_rev).
    cbn [nth_error]. split; [reflexivity | now apply Hname].
Qed.

(** X12.  The sidecar lies in the folder of the file it describes: for a
    file [dir/fname] ([fname] without slash) the sidecar path is
    [dir/metadata_<stem>.json], where [<stem>] is [fname] without its last
    extension ([fname] itself when it has no dot), and the sidecar's own
    name contains no slash. *)
Theorem sidecar_next_to_file :
  forall dir fname : str,
    ~ In "/"%char fname ->
    (forall base ext : str,
       fname = dotted base ext ->
       ~ In "."%char ext ->
       VolumeService.metadata_path_of (dir ++ lit "/" ++ fname)
       = Ok (dir ++ lit "/" ++ lit "metadata_" ++ base ++ lit ".json")
       /\ ~ In "/"%char (lit "metadata_" ++ base ++ lit ".json"))
    /\ (~ In "."%char fname ->
        VolumeService.metadata_path_of (dir ++ lit "/" ++ fname)
        = Ok (dir ++ lit "/" ++ lit "metadata_" ++ fname ++ lit ".json")
        /\ ~ In "/"%char (lit "metadata_" ++ fname ++ lit ".json")).
Proof. exact metadata_path_of_in_folder. Qed.

Lemma sidecar_next_to_file_witness :
  VolumeService.metadata_path_of (lit "/vol/p/2024-01-15/a.b_csv_1.txt")
  = Ok (lit "/vol/p/2024-01-15/metadata_a.b_csv_1.json").
Proof.
  assert (Hslash : ~ In "/"%char (lit "a.b_csv_1.txt")).
  { vm_compute. intuition discriminate. }
  assert (Hdot : ~ In "."%char (lit "txt")).
  { vm_compute. intuition discriminate. }
  exact (proj1 (proj1 (sidecar_next_to_file (lit "/vol/p/2024-01-15")
                         (lit "a.b_csv_1.txt") Hslash)
                  (lit "a.b_csv_1") (lit "txt") eq_refl Hdot)).
Defined.

(** X13.  Naming composes: for an original name [base.ext] without slash
    and with a non-empty extension, the blob is stored as
    [folder/base_wt_stamp.ext] and its sidecar as
    [folder/metadata_base_wt_stamp.json]: both lie directly in [folder]
    and share the stem that carries the workflow type and the instant. *)
Theorem blob_and_sidecar_share_stem :
  forall (E : Env) (folder base ext : str) (t : WorkflowType) (w : World),
    ~ In "."%char ext ->
    ext <> [] ->
    ~ In "/"%char (dotted base ext) ->
    let stem := base ++ lit "_" ++ WorkflowType_value t ++ lit "_"
                ++ strftime_compact (utcnow_at E (ticks w)) in
    fst (VolumeService._generate_filename E (dotted base ext)
           (WorkflowType_value t) w) = Ok (stem ++ lit "." ++ ext)
    /\ ~ In "/"%char (stem ++ lit "." ++ ext)
    /\ VolumeService.metadata_path_of
         (folder ++ lit "/" ++ stem ++ lit "." ++ ext)
       = Ok (folder ++ lit "/" ++ lit "metadata_" ++ stem ++ lit ".json").
Proof.
  intros E folder base ext t w Hext Hne Hslash stem.
  assert (Hbase : ~ In "/"%char base)
    by (intros H; apply Hslash; unfold dotted; apply in_or_app; now left).
  assert (Hext' : ~ In "/"%char ext)
    by (intros H; apply Hslash; unfold dotted; apply in_or_app; right;
        now right).
  assert (Hstored : ~ In "/"%char (stem ++ lit "." ++ ext)).
  { subst stem. rewrite <- !app_assoc. intros Hin.
    rewrite !in_app_iff in Hin.
    pose proof (proj1 (WorkflowType_value_no t)) as Hwt.
    pose proof (proj1 (strftime_compact_no (utcnow_at E (ticks w)))) as Hst.
    assert (Hu : ~ In "/"%char (lit "_")) by (vm_compute; intuition discriminate).
    assert (Hd : ~ In "/"%char (lit ".")) by (vm_compute; intuition discriminate).
    tauto. }
  split; [|split; [exact Hstored|]].
  - subst stem. rewrite <- !app_assoc.
    apply (proj1 (generate_filename_cases E (WorkflowType_value t) w)); assumption.
  - apply (proj1 (metadata_path_of_in_folder folder (stem ++ lit "." ++ ext) Hstored)
             stem ext eq_refl Hext).
Qed.

Lemma blob_and_sidecar_share_stem_witness :
  VolumeService.metadata_path_of
    (lit "/vol/acme/2024-01-15" ++ lit "/"
     ++ (lit "data" ++ lit "_" ++ WorkflowType_value CSV ++ lit "_"
         ++ strftime_compact (utcnow_at quiet_env (ticks empty_world)))
     ++ lit "." ++ lit "csv")
  = Ok (lit "/vol/acme/2024-01-15/metadata_data_csv_20240115_103000.json").
Proof.
  assert (Hdot : ~ In "."%char (lit "csv")).
  { vm_compute. intuition discriminate. }
  assert (Hne : lit "csv" <> []) by discriminate.
  assert (Hslash : ~ In "/"%char (dotted (lit "data") (lit "csv"))).
  { vm_compute. intuition discriminate. }
  exact (proj2 (proj2 (blob_and_sidecar_share_stem quiet_env
                         (lit "/vol/acme/2024-01-15") (lit "data") (lit "csv")
                         CSV empty_world Hdot Hne Hslash))).
Defined.

(** ** Folder creation *)

Lemma get_project_folder_path_run (E : Env) (self : VolumeService.t)
    (project : str) (w : World) :
  VolumeService._get_project_folder_path E self project w
  = (Ok (project_folder E self project (ticks w)),
     {| calls := calls w; ticks := S (ticks w) |}).
Proof. reflexivity. Qed.

Lemma generate_filename_stored_name (E : Env) (orig wt : str) (w : World) :
  VolumeService._generate_filename E orig wt w
  = (Ok (stored_name E orig wt (ticks w)),
     {| calls := calls w; ticks := S (ticks w) |}).
Proof. reflexivity. Qed.

(** [create_project_folder] over the client's answer. *)
Lemma create_project_folder_run :
  forall (E : Env) (self : VolumeService.t) (project : str) (w : World),
    let folder := project_folder E self project (ticks w) in
    let answer := files_api E (calls w) (create_directory folder) in
    let w' := later w [create_directory folder] 1 in
    (folder_ready answer = true ->
     VolumeService.create_project_folder E self project w = (Ok folder, w'))
    /\ (forall msg : str,
          answer = Some msg ->
          contains (lit "already exists") (lower msg) = false ->
          VolumeService.create_project_folder E self project w
          = (Raise (Exception (lit "Failed to create project folder: "
                               ++ msg)), w')).
Proof.
  intros E self project w folder answer w'.
  unfold VolumeService.create_project_folder, bind, try_except.
  rewrite get_project_folder_path_run. fold folder.
  unfold client_call, bind, ret. cbn [calls ticks]. fold answer.
  split.
  - destruct answer as [msg|]; cbn [folder_ready]; [|reflexivity].
    intros H. cbn [str_exn]. rewrite H. reflexivity.
  - intros msg -> H. cbn [str_exn]. rewrite H. reflexivity.
Qed.

(** X14.  [create_project_folder] makes exactly one call to the client
    and reads the clock once.  When the call returns, or raises with
    "already exists" anywhere in its text (in any letter case), the result
    is the folder path, the same in both cases; any other failure is
    raised as "Failed to create project folder: ..." around the client's
    text. *)
Theorem create_project_folder_is_idempotent :
  forall (E : Env) (self : VolumeService.t) (project : str) (w : World),
    let folder := project_folder E self project (ticks w) in
    let answer := files_api E (calls w) (create_directory folder) in
    let w' := later w [create_directory folder] 1 in
    (folder_ready answer = true ->
     VolumeService.create_project_folder E self project w = (Ok folder, w'))
    /\ (forall msg : str,
          answer = Some msg ->
          contains (lit "already exists") (lower msg) = false ->
          VolumeService.create_project_folder E self project w
          = (Raise (Exception (lit "Failed to create project folder: "
                               ++ msg)), w')).
Proof. exact create_project_folder_run. Qed.

Lemma create_project_folder_is_idempotent_witness :
  VolumeService.create_project_folder already_there_env
    {| VolumeService.volume_path := lit "/vol" |} (lit "Acme Corp") empty_world
  = VolumeService.create_project_folder quiet_env
      {| VolumeService.volume_path := lit "/vol" |} (lit "Acme Corp")
      empty_world.
Proof.
  rewrite (proj1 (create_project_folder_is_idempotent already_there_env
                    {| VolumeService.volume_path := lit "/vol" |}
                    (lit "Acme Corp") empty_world) eq_refl).
  rewrite (proj1 (create_project_folder_is_idempotent quiet_env
                    {| VolumeService.volume_path := lit "/vol" |}
                    (lit "Acme Corp") empty_world) eq_refl).
  reflexivity.
Defined.

(** ** The upload, step by step *)

(** [VolumeService.upload_file] over the two answers of the client. *)
Lemma volume_upload_file_run (E : Env) (self : VolumeService.t) (body : Body)
    (orig project wt : str) (w : World) :
  VolumeService.upload_file E self body orig project wt w
  = let folder := project_folder E self project (ticks w) in
    let cd := create_directory folder in
    let stored := stored_name E orig wt (S (ticks w)) in
    let path := folder ++ lit "/" ++ stored in
    let up := upload path body true in
    let a1 := files_api E (calls w) cd in
    if negb (folder_ready a1)
    then (Raise (Exception (lit "Failed to create project folder: "
                            ++ answer_text a1)),
          later w [cd] 1)
    else
      match files_api E (calls w ++ [cd]) up with
      | Some msg =>
          (Raise (Exception (lit "Failed to upload file to volume: " ++ msg)),
           later w [cd; up] 2)
      | None => (Ok (stored, path), later w [cd; up] 2)
      end.
Proof.
  cbv zeta. unfold VolumeService.upload_file. unfold bind at 1.
  destruct (create_project_folder_run E self project w)
    as [Hready Hfail].
  destruct (folder_ready
              (files_api E (calls w)
                 (create_directory
                    (project_folder E self project (ticks w))))) eqn:Hr.
  - rewrite (Hready eq_refl). cbn [negb]. unfold bind at 1.
    rewrite generate_filename_stored_name.
    unfold later. cbn [calls ticks Nat.add].
    unfold try_except, client_call, bind, ret, raise. cbn [calls ticks].
    match goal with
    | |- context [files_api E (calls w ++ ?l) ?c] =>
        destruct (files_api E (calls w ++ l) c) as [msg|]
    end; cbv beta iota zeta; cbn [str_exn]; now rewrite <- app_assoc.
  - destruct (files_api E (calls w)
                (create_directory (project_folder E self project (ticks w))))
      as [msg|] eqn:Ha; [|discriminate Hr].
    cbn [folder_ready] in Hr. rewrite (Hfail msg eq_refl Hr).
    reflexivity.
Qed.

Lemma UploadInfo_new_raises (t : datetime) (u o s p : str) (n : Z) (f : str)
    (e : exn) :
  UploadInfo_new t u o s p n f = Raise e -> is_HTTPException e = false.
Proof.
  unfold UploadInfo_new. destruct (0 <? n)%Z; [discriminate|].
  intros H. injection H as <-. reflexivity.
Qed.

Lemma metadata_path_of_raises (p : str) (e : exn) :
  VolumeService.metadata_path_of p = Raise e -> e = IndexError.
Proof.
  unfold VolumeService.metadata_path_of.
  destruct (nth_error (rsplit1 "/" p) 0); [|congruence].
  destruct (nth_error (rsplit1 "/" p) 1); [|congruence].
  destruct (nth_error (rsplit1 "." _) 0); congruence.
Qed.

(** [process_upload] as a decision tree over the file policy, the three
    answers of the storage client and the construction of [UploadInfo]. *)
Lemma process_upload_run (E : Env) (self : UploadService.t)
    (file : UploadFile) (req : FileUploadRequest) (email : str) (w : World) :
  process_upload E self file req email w
  = let cd := folder_call E self req w in
    let up := blob_call E self file req w in
    let path := blob_path E self file req w in
    let stored :=
      stored_name E (filename_or_unknown (filename file))
        (WorkflowType_value (workflow_type (req_technical_metadata req)))
        (S (ticks w)) in
    match _validate_file self file with
    | Raise e => (Raise e, w)
    | Ok _ =>
      let a1 := files_api E (calls w) cd in
      if negb (folder_ready a1)
      then (Raise (upload_failed
                     (lit "Failed to create project folder: "
                      ++ answer_text a1)),
            later w [cd] 1)
      else
        match files_api E (calls w ++ [cd]) up with
        | Some msg =>
            (Raise (upload_failed
                      (lit "Failed to upload file to volume: " ++ msg)),
             later w [cd; up] 2)
        | None =>
          match UploadInfo_new (utcnow_at E (S (S (ticks w)))) email
                  (filename_or_unknown (filename file)) stored path
                  (size_or_0 (size file)) (file_format_of file) with
          | Raise e =>
              (Raise (upload_failed (str_exn E e)), later w [cd; up] 3)
          | Ok info =>
            let md := {| upload_info := info;
                         technical_metadata := req_technical_metadata req;
                         research_metadata := req_research_metadata req |} in
            match VolumeService.metadata_path_of path with
            | Raise e =>
                (Raise (upload_failed (str_exn E e)), later w [cd; up] 3)
            | Ok sidecar =>
              let sc := upload sidecar (MetadataJson md) true in
              match files_api E (calls w ++ [cd; up]) sc with
              | Some msg =>
                  (Raise (upload_failed
                            (lit "Failed to save metadata: " ++ msg)),
                   later w [cd; up; sc] 3)
              | None =>
                  (Ok {| success := true;
                         message := lit "File uploaded successfully";
                         resp_upload_info := info;
                         resp_research_metadata := req_research_metadata req;
                         resp_technical_metadata :=
                           req_technical_metadata req;
                         metadata_file_path := sidecar |},
                   later w [cd; up; sc] 3)
              end
            end
          end
        end
    end.
Proof.
  cbv zeta.
  unfold process_upload. unfold try_except at 1. unfold bind at 1.
  unfold lift at 1.
  destruct (_validate_file self file) as [[]|e] eqn:Hv.
  2:{ now rewrite (_validate_file_raises_http self file e Hv). }
  unfold bind at 1. rewrite volume_upload_file_run. cbv zeta.
  fold (folder_call E self req w). fold (blob_path E self file req w).
  fold (blob_call E self file req w).
  destruct (negb (folder_ready (files_api E (calls w) (folder_call E self req w)))).
  { reflexivity. }
  destruct (files_api E (calls w ++ [folder_call E self req w])
              (blob_call E self file req w)) as [msg|].
  { reflexivity. }
  unfold bind at 1. unfold _create_upload_info at 1.
  fold (file_format_of file).
  unfold bind at 1, utcnow at 1, lift at 1. unfold later at 1.
  cbn [calls ticks Nat.add].
  destruct (UploadInfo_new _ _ _ _ _ _ _) as [info|e] eqn:Hinfo.
  2:{ now rewrite (UploadInfo_new_raises _ _ _ _ _ _ _ e Hinfo). }
  unfold bind at 1. unfold VolumeService.save_metadata at 1.
  unfold bind at 1, lift at 1.
  destruct (VolumeService.metadata_path_of (blob_path E self file req w))
    as [sidecar|e] eqn:Hside.
  2:{ now rewrite (metadata_path_of_raises _ e Hside). }
  unfold try_except, client_call, bind, ret, raise, later.
  cbn [calls ticks Nat.add].
  match goal with
  | |- context [files_api E (calls w ++ ?l) ?c] =>
      destruct (files_api E (calls w ++ l) c) as [msg|]
  end; cbv beta iota zeta;
    cbn [is_HTTPException str_exn];
    unfold upload_failed; now rewrite <- ?app_assoc.
Qed.

(** Case analysis of a run of [process_upload]. *)
Ltac upload_cases E self file req email w :=
  rewrite (process_upload_run E self file req email w); cbv zeta;
  destruct (_validate_file self file) as [[]|?e] eqn:?Hvalid;
  [ destruct (folder_ready
                (files_api E (calls w) (folder_call E self req w)))
      eqn:?Hfolder; cbn [negb];
    [ destruct (files_api E (calls w ++ [folder_call E self req w])
                  (blob_call E self file req w)) as [?msg|] eqn:?Hblob;
      [ | destruct (UploadInfo_new _ _ _ _ _ _ _) as [?info|?e] eqn:?Hinfo;
          [ destruct (VolumeService.metadata_path_of
                        (blob_path E self file req w))
              as [?sidecar|?e] eqn:?Hside;
            [ match goal with
              | |- context [files_api E (calls w ++ ?l) ?c] =>
                  destruct (files_api E (calls w ++ l) c) as [?msg|] eqn:?Hjson
              end
            | ]
          | ] ]
    | ]
  | ].

(** X15.  Every exception [process_upload] lets out is an
    [HTTPException], with status 413 or 400 (the file policy) or 500
    (anything else, under "Upload failed: "). *)
Theorem process_upload_raises_http_only :
  forall (E : Env) (self : UploadService.t) (file : UploadFile)
         (req : FileUploadRequest) (email : str) (w : World) (e : exn),
    fst (process_upload E self file req email w) = Raise e ->
    exists status detail,
      e = HTTPException status detail
      /\ (status = 413 \/ status = 400 \/ status = 500)%Z.
Proof.
  intros E self file req email w e.
  upload_cases E self file req email w; cbn [fst]; intros H;
    try discriminate H; injection H as <-;
    try (unfold upload_failed; do 2 eexists; split; [reflexivity | tauto]).
  revert Hvalid. unfold _validate_file.
  destruct (size_exceeds _ _).
  - intros H. injection H as <-. do 2 eexists. split; [reflexivity | tauto].
  - destruct (filename file) as [name|]; [|discriminate].
    destruct (truthy name); [|discriminate].
    destruct (negb _); [|discriminate].
    intros H. injection H as <-. do 2 eexists. split; [reflexivity | tauto].
Qed.

Lemma process_upload_raises_http_only_witness :
  exists status detail,
    HTTPException 400
      (lit "File type '.exe' is not allowed. Allowed types: csv, json, pdf, xlsx, txt")
    = HTTPException status detail
    /\ (status = 413 \/ status = 400 \/ status = 500)%Z.
Proof.
  apply (process_upload_raises_http_only quiet_env default_service small_exe
           (sample_request (lit "Acme Corp") CSV) (lit "a@b.c") empty_world).
  reflexivity.
Defined.

(** X16.  Once the framework has built the request and calls the handler
    [upload_file] of [POST /upload/], the handler turns every exception of
    [process_upload] into an [HTTPException] with status 500: a call of
    the handler ends with a response (status 200) or with status 500,
    nothing else.  (Requests the framework rejects before the handler runs
    are outside this statement.) *)
Theorem upload_route_status :
  forall (E : Env) (self : UploadService.t) (user : option str)
         (file : UploadFile) (req : FileUploadRequest) (w : World),
    let r := Router.upload_file E self user file req w in
    (forall e, fst r = Raise e -> exists detail, e = HTTPException 500 detail)
    /\ (response_status (fst r) = 200 \/ response_status (fst r) = 500)%Z.
Proof.
  intros E self user file req w r. subst r.
  unfold Router.upload_file, try_except.
  destruct (process_upload E self file req _ w) as [[resp|e0] w'].
  - split; [discriminate | now left].
  - unfold raise. cbn [fst response_status]. split; [|now right].
    intros e H. injection H as <-. eexists. reflexivity.
Qed.

Lemma upload_route_status_witness :
  exists detail,
    HTTPException 500
      (lit "413: File size exceeds maximum allowed size of 100.0MB")
    = HTTPException 500 detail.
Proof.
  apply (proj1 (upload_route_status quiet_env default_service None
                  oversized_csv (sample_request (lit "Acme Corp") CSV)
                  empty_world)).
  reflexivity.
Defined.

(** X17.  Whatever the client answers, [process_upload] calls it at most
    three times and always in the same order: the folder creation, then
    the upload of the blob under the generated name in that folder, then
    the upload of the sidecar at the path derived from the blob's path. *)
Theorem process_upload_calls_in_order :
  forall (E : Env) (self : UploadService.t) (file : UploadFile)
         (req : FileUploadRequest) (email : str) (w : World),
    let after := calls (snd (process_upload E self file req email w)) in
    let cd := folder_call E self req w in
    let up := blob_call E self file req w in
    after = calls w
    \/ after = calls w ++ [cd]
    \/ after = calls w ++ [cd; up]
    \/ exists sidecar md,
         VolumeService.metadata_path_of (blob_path E self file req w)
         = Ok sidecar
         /\ after = calls w ++ [cd; up; upload sidecar (MetadataJson md) true].
Proof.
  intros E self file req email w after cd up. subst after cd up.
  upload_cases E self file req email w; cbn [snd later calls]; auto.
  - right. right. right. do 2 eexists. split; reflexivity.
  - right. right. right. do 2 eexists. split; reflexivity.
Qed.

Lemma validate_ok_size (self : UploadService.t) (file : UploadFile) :
  _validate_file self file = Ok tt ->
  size_exceeds (size file) (max_file_size self) = false
  /\ type_allowed self file = true.
Proof.
  unfold _validate_file, type_allowed.
  destruct (size_exceeds _ _); [discriminate|]. intros H. split; [reflexivity|].
  destruct (filename file) as [name|]; [|reflexivity].
  destruct (truthy name); [|reflexivity]. cbn [negb orb].
  destruct (mem _ _); [reflexivity | discriminate H].
Qed.

(** What a response of [process_upload] implies. *)
Lemma process_upload_ok_inv :
  forall (E : Env) (self : UploadService.t) (file : UploadFile)
         (req : FileUploadRequest) (email : str) (w : World)
         (resp : FileUploadResponse),
    fst (process_upload E self file req email w) = Ok resp ->
    let info := resp_upload_info resp in
    let md := {| upload_info := info;
                 technical_metadata := req_technical_metadata req;
                 research_metadata := req_research_metadata req |} in
    _validate_file self file = Ok tt
    /\ size file = Some (file_size_bytes info)
    /\ (0 < file_size_bytes info <= max_file_size self)%Z
    /\ file_path info = blob_path E self file req w
    /\ original_filename info = filename_or_unknown (filename file)
    /\ stored_filename info
       = stored_name E (filename_or_unknown (filename file))
           (WorkflowType_value (workflow_type (req_technical_metadata req)))
           (S (ticks w))
    /\ file_format info = file_format_of file
    /\ uploader info = email
    /\ VolumeService.metadata_path_of (file_path info)
       = Ok (metadata_file_path resp)
    /\ resp_research_metadata resp = req_research_metadata req
    /\ resp_technical_metadata resp = req_technical_metadata req
    /\ calls (snd (process_upload E self file req email w))
       = calls w
         ++ [folder_call E self req w;
             upload (file_path info) (Blob (content file)) true;
             upload (metadata_file_path resp) (MetadataJson md) true].
Proof.
  intros E self file req email w resp.
  upload_cases E self file req email w; cbn [fst]; intros H;
    try discriminate H. injection H as <-.
  cbv zeta. cbn [resp_upload_info metadata_file_path resp_research_metadata
                 resp_technical_metadata snd later calls].
  destruct (validate_ok_size self file Hvalid) as [Hsize _].
  unfold UploadInfo_new in Hinfo.
  destruct (0 <? size_or_0 (size file))%Z eqn:Hpos; [|discriminate Hinfo].
  injection Hinfo as <-.
  cbn [file_size_bytes file_path file_format uploader original_filename
       stored_filename].
  apply Z.ltb_lt in Hpos.
  assert (Hsz : size file = Some (size_or_0 (size file))).
  { destruct (size file) as [n|]; [reflexivity | cbn in Hpos; lia]. }
  split; [reflexivity|]. split; [exact Hsz|].
  split.
  { split; [exact Hpos|]. rewrite Hsz in Hsize. cbn [size_exceeds] in Hsize.
    apply andb_false_iff in Hsize as [Hz|Hlt].
    - apply negb_false_iff, Z.eqb_eq in Hz. lia.
    - apply Z.ltb_ge in Hlt. exact Hlt. }
  repeat (split; [reflexivity || exact Hside|]).
  reflexivity.
Qed.

(** X18.  A response of [process_upload] tells the truth about what was
    stored: the file passed the policy, its reported size is positive, at
    most the ceiling, and is the [file_size_bytes] of the response; the
    client was called exactly three times (folder, blob, sidecar); the
    response gives the path the blob was written to and the path the
    sidecar was written to, which is the one derived from the blob's path;
    and the sidecar holds the very [upload_info] and metadata the caller
    gets back. *)
Theorem upload_response_matches_storage :
  forall (E : Env) (self : UploadService.t) (file : UploadFile)
         (req : FileUploadRequest) (email : str) (w : World)
         (resp : FileUploadResponse),
    fst (process_upload E self file req email w) = Ok resp ->
    let info := resp_upload_info resp in
    let md := {| upload_info := info;
                 technical_metadata := req_technical_metadata req;
                 research_metadata := req_research_metadata req |} in
    _validate_file self file = Ok tt
    /\ size file = Some (file_size_bytes info)
    /\ (0 < file_size_bytes info <= max_file_size self)%Z
    /\ file_path info = blob_path E self file req w
    /\ original_filename info = filename_or_unknown (filename file)
    /\ stored_filename info
       = stored_name E (filename_or_unknown (filename file))
           (WorkflowType_value (workflow_type (req_technical_metadata req)))
           (S (ticks w))
    /\ file_format info = file_format_of file
    /\ uploader info = email
    /\ VolumeService.metadata_path_of (file_path info)
       = Ok (metadata_file_path resp)
    /\ resp_research_metadata resp = req_research_metadata req
    /\ resp_technical_metadata resp = req_technical_metadata req
    /\ calls (snd (process_upload E self file req email w))
       = calls w
         ++ [folder_call E self req w;
             upload (file_path info) (Blob (content file)) true;
             upload (metadata_file_path resp) (MetadataJson md) true].
Proof. exact process_upload_ok_inv. Qed.

Lemma upload_response_matches_storage_witness :
  exists resp,
    fst (process_upload quiet_env default_service full_size_csv
           (sample_request (lit "Acme Corp") CSV) (lit "a@b.c") empty_world)
    = Ok resp
    /\ size full_size_csv = Some (file_size_bytes (resp_upload_info resp))
    /\ (0 < file_size_bytes (resp_upload_info resp)
        <= max_file_size default_service)%Z.
Proof.
  eexists. split; [reflexivity|].
  pose proof (upload_response_matches_storage quiet_env default_service
                full_size_csv (sample_request (lit "Acme Corp") CSV)
                (lit "a@b.c") empty_world _ eq_refl) as H.
  cbv zeta in H. destruct H as (_ & Hs & Hb & _). split; [exact Hs | exact Hb].
Defined.

(** X19.  For a file that passed validation, a failure of the storage
    client ends the upload where it happens, with a 500 error around the
    client's text, and nothing written before is taken back: when the
    folder creation fails (not with "already exists") the blob is never
    sent; when the upload of the blob fails the sidecar is never sent;
    when the upload of the sidecar fails (that one call, whatever the
    client does elsewhere) the blob upload has been made and no further
    call follows. *)
Theorem storage_failure_ends_the_upload :
  forall (E : Env) (self : UploadService.t) (file : UploadFile)
         (req : FileUploadRequest) (email : str) (w : World) (msg : str),
    _validate_file self file = Ok tt ->
    let r := process_upload E self file req email w in
    let cd := folder_call E self req w in
    let up := blob_call E self file req w in
    (files_api E (calls w) cd = Some msg ->
     contains (lit "already exists") (lower msg) = false ->
     fst r = Raise (upload_failed
                      (lit "Failed to create project folder: " ++ msg))
     /\ calls (snd r) = calls w ++ [cd])
    /\ (folder_ready (files_api E (calls w) cd) = true ->
        files_api E (calls w ++ [cd]) up = Some msg ->
        fst r = Raise (upload_failed
                         (lit "Failed to upload file to volume: " ++ msg))
        /\ calls (snd r) = calls w ++ [cd; up])
    /\ (folder_ready (files_api E (calls w) cd) = true ->
        files_api E (calls w ++ [cd]) up = None ->
        forall (info : UploadInfo) (sidecar : str),
          UploadInfo_new (utcnow_at E (S (S (ticks w)))) email
            (filename_or_unknown (filename file))
            (stored_name E (filename_or_unknown (filename file))
               (WorkflowType_value
                  (workflow_type (req_technical_metadata req)))
               (S (ticks w)))
            (blob_path E self file req w)
            (size_or_0 (size file)) (file_format_of file) = Ok info ->
          VolumeService.metadata_path_of (blob_path E self file req w)
          = Ok sidecar ->
          let sc :=
            upload sidecar
              (MetadataJson
                 {| upload_info := info;
                    technical_metadata := req_technical_metadata req;
                    research_metadata := req_research_metadata req |})
              true in
          files_api E (calls w ++ [cd; up]) sc = Some msg ->
          fst r = Raise (upload_failed
                           (lit "Failed to save metadata: " ++ msg))
          /\ calls (snd r) = calls w ++ [cd; up; sc]).
Proof.
  intros E self file req email w msg Hv r cd up. subst r cd up.
  split; [|split].
  - intros Ha Hc.
    assert (Hnot : folder_ready
                     (files_api E (calls w) (folder_call E self req w))
                   = false) by (rewrite Ha; exact Hc).
    upload_cases E self file req email w; try congruence.
    rewrite Ha. cbn [answer_text fst snd later calls]. split; reflexivity.
  - intros Hr Hb.
    upload_cases E self file req email w; try congruence.
    assert (msg0 = msg) by congruence. subst msg0.
    cbn [fst snd later calls]. split; reflexivity.
  - intros Hr Hb info sidecar Hnew Hpath sc Hjson. subst sc.
    rewrite (process_upload_run E self file req email w). cbv zeta.
    rewrite Hv, Hr. cbn [negb]. rewrite Hb, Hnew, Hpath, Hjson.
    cbn [fst snd later calls]. split; reflexivity.
Qed.

Lemma storage_failure_ends_the_upload_witness :
  fst (process_upload no_json_env default_service full_size_csv
         (sample_request (lit "Acme Corp") CSV) (lit "a@b.c") empty_world)
  = Raise (HTTPException 500
             (lit "Upload failed: Failed to save metadata: quota exceeded")).
Proof.
  eapply (proj1 (proj2 (proj2 (storage_failure_ends_the_upload no_json_env
                                 default_service full_size_csv
                                 (sample_request (lit "Acme Corp") CSV)
                                 (lit "a@b.c") empty_world
                                 (lit "quota exceeded") eq_refl))
                   eq_refl eq_refl _ _ eq_refl eq_refl eq_refl)).
Defined.

(** Conditions under which [process_upload] returns. *)
Lemma process_upload_ok :
  forall (E : Env) (self : UploadService.t) (user : option str)
         (file : UploadFile) (req : FileUploadRequest) (w : World) (n : Z),
    size file = Some n ->
    (0 < n <= max_file_size self)%Z ->
    type_allowed self file = true ->
    (forall h c, files_api E h c = None) ->
    (forall email, exists resp,
        fst (process_upload E self file req email w) = Ok resp
        /\ file_size_bytes (resp_upload_info resp) = n)
    /\ response_status (fst (Router.upload_file E self user file req w))
       = 200%Z.
Proof.
  intros E self user file req w n Hsize Hn Htype Hclient.
  assert (Hvalid : _validate_file self file = Ok tt).
  { unfold _validate_file, type_allowed in *. rewrite Hsize.
    cbn [size_exceeds].
    replace (max_file_size self <? n)%Z with false
      by (symmetry; apply Z.ltb_ge; lia).
    rewrite andb_false_r.
    destruct (filename file) as [name|]; [|reflexivity].
    destruct (truthy name); [|reflexivity].
    cbn [negb orb] in Htype. now rewrite Htype. }
  assert (Hrun : forall email, exists resp,
             fst (process_upload E self file req email w) = Ok resp
             /\ file_size_bytes (resp_upload_info resp) = n).
  { intros email.
    upload_cases E self file req email w; try congruence;
      try (rewrite Hclient in *; discriminate).
    - eexists. split; [reflexivity|]. cbn [resp_upload_info].
      unfold UploadInfo_new in Hinfo.
      destruct (0 <? _)%Z; [|discriminate].
      injection Hinfo as <-. cbn [file_size_bytes]. now rewrite Hsize.
    - exfalso.
      destruct (metadata_path_of_slash (blob_path E self file req w))
        as [_ Hok].
      destruct Hok as [sc Hsc]; [|congruence].
      unfold blob_path. apply in_or_app. right. now left.
    - unfold UploadInfo_new in Hinfo. rewrite Hsize in Hinfo.
      cbn [size_or_0] in Hinfo.
      replace (0 <? n)%Z with true in Hinfo
        by (symmetry; apply Z.ltb_lt; lia).
      discriminate. }
  split; [exact Hrun|].
  unfold Router.upload_file, try_except.
  match goal with
  | |- context [process_upload E self file req ?em w] =>
      destruct (Hrun em) as (resp & Hresp & _);
      destruct (process_upload E self file req em w) as [r w']
  end.
  cbn [fst] in Hresp. subst r. reflexivity.
Qed.



(** ** Lists of values, written and read back *)

Lemma split_app_first (sep : ascii) (x rest : str) :
  ~ In sep x -> split sep (x ++ sep :: rest) = x :: split sep rest.
Proof.
  induction x as [|c x IH]; cbn [app split]; intros Hx.
  - destruct (ascii_dec sep sep) as [_|N]; [reflexivity | now destruct N].
  - destruct (ascii_dec c sep) as [->|_].
    + exfalso. apply Hx. now left.
    + rewrite IH; [reflexivity | intros H; apply Hx; now right].
Qed.

(** Joining pieces that do not contain the separator and splitting again
    gives the pieces back. *)
Lemma split_join (sep : ascii) (xs : list str) :
  xs <> [] ->
  (forall x, In x xs -> ~ In sep x) ->
  split sep (join [sep] xs) = xs.
Proof.
  induction xs as [|x xs IH]; [congruence|]. intros _ Hxs.
  destruct xs as [|y ys].
  - cbn [join]. apply split_absent. apply Hxs. now left.
  - change (join [sep] (x :: y :: ys)) with (x ++ sep :: join [sep] (y :: ys)).
    rewrite split_app_first by (apply Hxs; now left).
    rewrite IH; [reflexivity | discriminate |].
    intros z Hz. apply Hxs. now right.
Qed.

Lemma split_nonempty (sep : ascii) (s : str) : split sep s <> [].
Proof.
  destruct s as [|c s]; cbn [split]; [discriminate|].
  destruct (ascii_dec c sep); [discriminate|].
  destruct (split sep s); discriminate.
Qed.

(** Splitting and joining again gives the string back. *)
Lemma join_split (sep : ascii) (s : str) : join [sep] (split sep s) = s.
Proof.
  induction s as [|c s IH]; [reflexivity|]. cbn [split].
  pose proof (split_nonempty sep s) as Hne.
  destruct (ascii_dec c sep) as [->|_].
  - destruct (split sep s) as [|h t] eqn:Hs; [congruence|].
    change (join [sep] ([] :: h :: t)) with (sep :: join [sep] (h :: t)).
    now rewrite IH.
  - destruct (split sep s) as [|h t] eqn:Hs; [congruence|].
    destruct t as [|h' t'].
    + cbn [join] in *. now subst.
    + change (join [sep] ((c :: h) :: h' :: t'))
        with (c :: (h ++ sep :: join [sep] (h' :: t'))).
      f_equal. exact IH.
Qed.

Lemma ProcessingRequirement_value_facts (r : ProcessingRequirement) :
  ProcessingRequirement_call (ProcessingRequirement_value r) = Ok r
  /\ strip (ProcessingRequirement_value r) = ProcessingRequirement_value r
  /\ ~ In ","%char (ProcessingRequirement_value r)
  /\ forallb isspace (ProcessingRequirement_value r) = false.
Proof.
  destruct r; (split; [reflexivity|]); (split; [reflexivity|]);
    (split; [vm_compute; intuition discriminate | reflexivity]).
Qed.

Lemma requirements_loop_values (rs acc : list ProcessingRequirement) :
  fold_left
    (fun proc_reqs req =>
       match ProcessingRequirement_call req with
       | Ok r => proc_reqs ++ [r]
       | Raise _ => proc_reqs
       end)
    (map ProcessingRequirement_value rs) acc
  = acc ++ rs.
Proof.
  revert acc. induction rs as [|r rs IH]; intros acc; cbn [map fold_left].
  - now rewrite app_nil_r.
  - destruct (ProcessingRequirement_value_facts r) as (-> & _).
    rewrite IH, <- app_assoc. reflexivity.
Qed.

(** X21.  The processing-requirements field round-trips: writing any list
    of requirements as their values separated by commas and parsing that
    string gives the list back, in order and with its repetitions. *)
Theorem processing_requirements_roundtrip :
  forall rs : list ProcessingRequirement,
    Router.parse_processing_requirements
      (join (lit ",") (map ProcessingRequirement_value rs)) = rs.
Proof.
  intros rs. unfold Router.parse_processing_requirements.
  destruct rs as [|r rs]; [reflexivity|].
  set (s := join (lit ",") (map ProcessingRequirement_value (r :: rs))).
  assert (Hs : split "," s = map ProcessingRequirement_value (r :: rs)).
  { apply (split_join "," (map ProcessingRequirement_value (r :: rs)));
      [discriminate|].
    intros x Hx. apply in_map_iff in Hx as (q & <- & _).
    apply ProcessingRequirement_value_facts. }
  assert (Ht : truthy (strip s) = true).
  { destruct (strip s) eqn:Hstrip; [|reflexivity]. exfalso.
    apply strip_nil_all_space in Hstrip.
    assert (Hpre : exists rest, s = ProcessingRequirement_value r ++ rest).
    { subst s. cbn [map]. destruct (map ProcessingRequirement_value rs).
      - exists []. cbn [join]. now rewrite app_nil_r.
      - eexists. reflexivity. }
    destruct Hpre as (rest & Hpre). rewrite Hpre, forallb_app in Hstrip.
    destruct (ProcessingRequirement_value_facts r) as (_ & _ & _ & Hn).
    rewrite Hn in Hstrip. discriminate. }
  rewrite Ht, Hs, map_map.
  rewrite (map_ext _ ProcessingRequirement_value)
    by (intros q; apply ProcessingRequirement_value_facts).
  apply (requirements_loop_values (r :: rs) []).
Qed.

(** The quotient of bytes by [1024 * 1024], for a service built from
    megabytes. *)
Lemma stats_of_init (mb : Z) (types root : str) :
  QArith_base.Qeq
    (max_file_size_mb (get_upload_stats (__init__ mb types root)))
    (QArith_base.inject_Z mb).
Proof.
  unfold get_upload_stats, __init__.
  cbn [max_file_size_mb max_file_size].
  unfold QArith_base.Qeq, QArith_base.Qdiv, QArith_base.Qmult,
    QArith_base.Qinv, QArith_base.inject_Z.
  cbn. lia.
Qed.

(** X22.  The configuration round-trips through the service: for a
    service built from [mb] megabytes with [0 <= mb <= 2^53] (where the
    float of the report is exact), a comma-separated list of types and a
    storage root, [GET /upload/config] reports [mb] again (the conversion
    to bytes and back loses nothing), the pieces of the list, which joined
    by commas spell the configured string, and the root. *)
Theorem upload_config_roundtrip :
  forall (mb : Z) (types root : str),
    (0 <= mb <= 2 ^ 53)%Z ->
    let stats := Router.get_upload_config (__init__ mb types root) in
    QArith_base.Qeq (max_file_size_mb stats) (QArith_base.inject_Z mb)
    /\ allowed_file_types stats = split "," types
    /\ join (lit ",") (allowed_file_types stats) = types
    /\ stats_volume_path stats = root.
Proof.
  intros mb types root _ stats. subst stats.
  unfold Router.get_upload_config.
  split; [apply stats_of_init|].
  unfold get_upload_stats, __init__.
  cbn [allowed_file_types stats_volume_path allowed_types volume_service
       VolumeService.volume_path].
  split; [reflexivity | split; [apply join_split | reflexivity]].
Qed.

Lemma upload_config_roundtrip_witness :
  (0 <= 100 <= 2 ^ 53)%Z
  /\ QArith_base.Qeq
       (max_file_size_mb (Router.get_upload_config default_service))
       (QArith_base.inject_Z 100)
  /\ allowed_file_types (Router.get_upload_config default_service)
     = [lit "csv"; lit "json"; lit "pdf"; lit "xlsx"; lit "txt"].
Proof.
  assert (Hmb : (0 <= 100 <= 2 ^ 53)%Z) by (vm_compute; split; discriminate).
  split; [exact Hmb|].
  destruct (upload_config_roundtrip 100%Z (lit "csv,json,pdf,xlsx,txt")
              (lit "/Volumes/jmr_demo/intake/storage") Hmb)
    as (Hq & Hl & _).
  split; [exact Hq | exact Hl].
Defined.

(** X23.  Listing reads the folder uploads write to: with the date left
    to its default, [list_project_files] asks the client for the very
    folder [_get_project_folder_path] names at that reading of the clock,
    and giving that day's date explicitly reads the same folder without
    reading the clock; for a project name made of the characters the
    project-name pattern lets through (ASCII letters and digits,
    whitespace, hyphens, underscores), giving the sanitized form of the
    name instead of the name reads that folder too. *)
Theorem listing_reads_the_upload_folder :
  forall (E : Env) (self : VolumeService.t) (DirectoryEntry : Type)
         (list_directory_contents : str -> result (list DirectoryEntry))
         (project : str) (w : World) (entries : list DirectoryEntry),
    let folder := project_folder E self project (ticks w) in
    let w' := {| calls := calls w; ticks := S (ticks w) |} in
    list_directory_contents folder = Ok entries ->
    VolumeService._get_project_folder_path E self project w = (Ok folder, w')
    /\ VolumeService.list_project_files E self DirectoryEntry
         list_directory_contents
         project None w = (Ok entries, w')
    /\ VolumeService.list_project_files E self DirectoryEntry
         list_directory_contents
         project (Some (strftime_date (utcnow_at E (ticks w)))) w
       = (Ok entries, w)
    /\ (forallb project_name_class project = true ->
        VolumeService.list_project_files E self DirectoryEntry
          list_directory_contents
          (VolumeService._sanitize_folder_name project) None w
        = (Ok entries, w')).
Proof.
  intros E self DE ldc project w entries folder w' Hls.
  split; [reflexivity|].
  unfold VolumeService.list_project_files, bind, utcnow, ret, try_except, lift.
  rewrite sanitize_twice.
  fold (project_folder E self project (ticks w)). fold folder.
  rewrite Hls. repeat split; reflexivity.
Qed.

Lemma listing_reads_the_upload_folder_witness :
  VolumeService.list_project_files quiet_env
    {| VolumeService.volume_path := lit "/vol" |} str
    (fun path => if str_eqb path (lit "/vol/acme-corp/2024-01-15")
                 then Ok [lit "data_csv_20240115_103000.csv"]
                 else Raise (ClientError (lit "Path does not exist")))
    (lit "Acme Corp") None empty_world
  = (Ok [lit "data_csv_20240115_103000.csv"],
     {| calls := []; ticks := 1 |}).
Proof.
  exact (proj1 (proj2 (listing_reads_the_upload_folder quiet_env
                         {| VolumeService.volume_path := lit "/vol" |} str
                         (fun path =>
                            if str_eqb path (lit "/vol/acme-corp/2024-01-15")
                            then Ok [lit "data_csv_20240115_103000.csv"]
                            else Raise (ClientError
                                          (lit "Path does not exist")))
                         (lit "Acme Corp") empty_world
                         [lit "data_csv_20240115_103000.csv"] eq_refl))).
Defined.

(** X24.  When the client raises on the folder, [list_project_files]
    returns the empty list if the text of the exception contains "does
    not exist" (in any letter case), and otherwise raises "Failed to list
    project files: ..." around that text; the world is left as it was. *)
Theorem listing_a_missing_folder :
  forall (E : Env) (self : VolumeService.t) (DirectoryEntry : Type)
         (list_directory_contents : str -> result (list DirectoryEntry))
         (project date : str) (w : World) (e : exn),
    list_directory_contents
      (VolumeService.volume_path self ++ lit "/"
       ++ VolumeService._sanitize_folder_name project ++ lit "/" ++ date)
    = Raise e ->
    VolumeService.list_project_files E self DirectoryEntry
         list_directory_contents
      project (Some date) w
    = if contains (lit "does not exist") (lower (str_exn E e))
      then (Ok [], w)
      else (Raise (Exception (lit "Failed to list project files: "
                              ++ str_exn E e)), w).
Proof.
  intros E self DE ldc project date w e Hls.
  unfold VolumeService.list_project_files, bind, ret, try_except, lift.
  rewrite Hls.
  destruct (contains (lit "does not exist") (lower (str_exn E e)));
    reflexivity.
Qed.

Lemma listing_a_missing_folder_witness :
  VolumeService.list_project_files quiet_env
    {| VolumeService.volume_path := lit "/vol" |} str
    (fun _ => @Raise (list str)
                (ClientError (lit "NOT_FOUND: The directory Does Not Exist")))
    (lit "Acme Corp") (Some (lit "2024-01-15")) empty_world
  = (Ok [], empty_world).
Proof.
  exact (listing_a_missing_folder quiet_env
           {| VolumeService.volume_path := lit "/vol" |} str
           (fun _ => Raise (ClientError
                              (lit "NOT_FOUND: The directory Does Not Exist")))
           (lit "Acme Corp") (lit "2024-01-15") empty_world
           (ClientError (lit "NOT_FOUND: The directory Does Not Exist"))
           eq_refl).
Defined.

(** ** A file without a name *)

(** X25.  A file that comes without a filename (missing or empty) is not
    type-checked; when it reports a positive size within the ceiling and
    the client accepts the calls it is stored as
    [unknown_<workflow>_<stamp>], without extension, and the response
    records "unknown" as original filename and the empty string as file
    format. *)
Theorem nameless_file_is_stored_as_unknown :
  forall (E : Env) (self : UploadService.t) (file : UploadFile)
         (req : FileUploadRequest) (email : str) (w : World) (n : Z),
    truthy_opt (filename file) = false ->
    size file = Some n ->
    (0 < n <= max_file_size self)%Z ->
    (forall h c, files_api E h c = None) ->
    exists resp,
      fst (process_upload E self file req email w) = Ok resp
      /\ original_filename (resp_upload_info resp) = lit "unknown"
      /\ stored_filename (resp_upload_info resp)
         = lit "unknown" ++ lit "_"
           ++ WorkflowType_value (workflow_type (req_technical_metadata req))
           ++ lit "_" ++ strftime_compact (utcnow_at E (S (ticks w)))
      /\ file_format (resp_upload_info resp) = [].
Proof.
  intros E self file req email w n Hname Hsize Hn Hclient.
  assert (Htype : type_allowed self file = true).
  { unfold type_allowed. destruct (filename file) as [name|]; [|reflexivity].
    cbn [truthy_opt] in Hname. now rewrite Hname. }
  destruct (proj1 (process_upload_ok E self None file req w n Hsize Hn Htype
                     Hclient) email) as (resp & Hresp & _).
  exists resp. split; [exact Hresp|].
  pose proof (process_upload_ok_inv E self file req email w resp
                Hresp) as H.
  cbv zeta in H.
  destruct H as (_ & _ & _ & _ & Horig & Hstored & Hfmt & _).
  assert (Hunknown : filename_or_unknown (filename file) = lit "unknown").
  { unfold filename_or_unknown. destruct (filename file) as [name|];
      [|reflexivity]. cbn [truthy_opt] in Hname. now rewrite Hname. }
  rewrite Hunknown in Horig, Hstored.
  split; [exact Horig|]. split.
  - rewrite Hstored. unfold stored_name.
    assert (Hdot : ~ In "."%char (lit "unknown")).
    { vm_compute. intuition discriminate. }
    now rewrite (proj2 (proj2 (generate_filename_cases E _ _)) (lit "unknown") Hdot).
  - rewrite Hfmt. unfold file_format_of.
    destruct (filename file) as [name|]; [|reflexivity].
    cbn [truthy_opt] in Hname. now rewrite Hname.
Qed.

Lemma nameless_file_is_stored_as_unknown_witness :
  exists resp,
    fst (process_upload quiet_env default_service nameless_file
           (sample_request (lit "Acme Corp") CSV) (lit "a@b.c") empty_world)
    = Ok resp
    /\ stored_filename (resp_upload_info resp)
       = lit "unknown_csv_20240115_103000".
Proof.
  assert (Hn : (0 < 10 <= max_file_size default_service)%Z)
    by (vm_compute; split; [reflexivity | discriminate]).
  destruct (nameless_file_is_stored_as_unknown quiet_env default_service
              nameless_file (sample_request (lit "Acme Corp") CSV)
              (lit "a@b.c") empty_world 10%Z eq_refl eq_refl Hn
              (fun _ _ => eq_refl))
    as (resp & Hresp & _ & Hstored & _).
  exists resp. split; [exact Hresp | exact Hstored].
Defined.
